(** * Conversation orchestration and context retrieval of the chatbot backend

    A shallow embedding of [app/models/chat.py], [app/services/mongodb.py]
    and [app/services/chatbot.py], followed by the properties of the turn
    pipeline: retrieval, turn classification, prompt construction,
    persistence and the conversation listing.

    Conventions of the embedding.
    - A Python [str] is a [string]; one character of the model stands for
      one character of the Python string.
    - A [datetime] is an instant on an integer time line ([Z]);
      [isoformat] renderings are kept as the instant itself.
    - Similarity scores are binary64 floats, compared with the primitive
      float comparison like Python's [>].
    - The content of a LangChain message is a [str].  LangChain also
      allows a list of content blocks, which the validation of
      [ChatMessage] would refuse when a reply is stored; that form is not
      modelled, so in the embedding [_convert_from_langchain_message]
      cannot fail.  The lemmas named [_run] describe runs of the
      embedding.  The theorems on turns do not lean on this: they say
      what a turn answers and stores when it returns and what it leaves
      when it raises, and say that it returns only where the reply is
      the placeholder of [build_topic_node], a [str].
    - The MongoDB collection is the list of its documents in natural
      order.  Every document is written by [save_conversation], whose
      [$set] carries all five fields of the model, so a document is a
      [ConversationHistory].  Driver errors ([PyMongoError]) are not
      modelled; the [collection is None] guards are.
    - Effects are threaded through a state-and-exception monad over
      [World]; the calls made to the collaborators (language model,
      vector index, web search) are logged in the world so that
      statements about what was sent, and how often, can be made. *)

From Stdlib Require Import Bool List String Ascii ZArith Lia.
From Stdlib Require Import Sorting.Sorted Sorting.Permutation.
From Stdlib Require Import Floats.PrimFloat.
Set Warnings "-inexact-float".
Import ListNotations.
Open Scope string_scope.
Open Scope Z_scope.

Set Implicit Arguments.

(** ** Data model ([app/models/chat.py]) *)

Definition datetime := Z.

Record ChatMessage := mkChatMessage {
  role : string;
  content : string;
  timestamp : datetime
}.

Record ConversationHistory := mkConversationHistory {
  conversation_id : string;
  messages : list ChatMessage;
  title : option string;
  created_at : datetime;
  updated_at : datetime
}.

(** ** LangChain messages

    [_convert_from_langchain_message] distinguishes [HumanMessage],
    [AIMessage] and everything else, so a [BaseMessage] is its class and
    its content. *)

Inductive MessageClass := HumanMessage | AIMessage | OtherMessage.

Record BaseMessage := mkBaseMessage {
  msg_class : MessageClass;
  msg_content : string
}.

(** What a graph node may put in its ["messages"] update: a message
    object, or a bare string ([build_topic_node] does that on failure). *)
Inductive MessageLike :=
| IsMessage (m : BaseMessage)
| IsStr (s : string).

(** A document returned by the vector store, with its similarity score. *)
Record Document := mkDocument { page_content : string }.

(** ** Exceptions *)

Inductive Exception :=
| ValueError (msg : string)
| IndexError
| AttributeError
| CollaboratorError (msg : string).

(** ** The world: store, clock, id source and call logs *)

Record World := mkWorld {
  collection : option (list ConversationHistory);
  clock : datetime;
  uuid_count : nat;
  llm_calls : list (list BaseMessage);
  vector_calls : list string;
  web_calls : list string
}.

Definition set_collection (c : option (list ConversationHistory)) (w : World) : World :=
  mkWorld c (clock w) (uuid_count w) (llm_calls w) (vector_calls w) (web_calls w).

Definition set_clock (t : datetime) (w : World) : World :=
  mkWorld (collection w) t (uuid_count w) (llm_calls w) (vector_calls w) (web_calls w).

Definition set_uuid_count (n : nat) (w : World) : World :=
  mkWorld (collection w) (clock w) n (llm_calls w) (vector_calls w) (web_calls w).

Definition log_llm (ms : list BaseMessage) (w : World) : World :=
  mkWorld (collection w) (clock w) (uuid_count w) (llm_calls w ++ [ms])
          (vector_calls w) (web_calls w).

Definition log_vector (q : string) (w : World) : World :=
  mkWorld (collection w) (clock w) (uuid_count w) (llm_calls w)
          (vector_calls w ++ [q]) (web_calls w).

Definition log_web (q : string) (w : World) : World :=
  mkWorld (collection w) (clock w) (uuid_count w) (llm_calls w)
          (vector_calls w) (web_calls w ++ [q]).

(** ** State-and-exception monad

    A computation runs in a world and ends either with a value or with a
    raised exception; in both cases the effects performed so far stay. *)

Inductive Outcome (A : Type) :=
| Returned (a : A)
| Raised (e : Exception).
Arguments Raised {A} e.

Definition M (A : Type) := World -> Outcome A * World.

Definition ret {A} (a : A) : M A := fun w => (Returned a, w).

Definition raise {A} (e : Exception) : M A := fun w => (Raised e, w).

Definition bind {A B} (m : M A) (k : A -> M B) : M B :=
  fun w =>
    match m w with
    | (Returned a, w') => k a w'
    | (Raised e, w') => (Raised e, w')
    end.

(** [try: m except Exception: h] *)
Definition try_except {A} (m : M A) (h : Exception -> M A) : M A :=
  fun w =>
    match m w with
    | (Returned a, w') => (Returned a, w')
    | (Raised e, w') => h e w'
    end.

Definition get_world : M World := fun w => (Returned w, w).

Definition modify (f : World -> World) : M unit := fun w => (Returned tt, f w).

Declare Scope monad_scope.
Delimit Scope monad_scope with monad.
Notation "x <- m ;; k" := (bind m (fun x => k))
  (at level 61, m at next level, right associativity) : monad_scope.
Notation "' pat <- m ;; k" := (bind m (fun x => match x with pat => k end))
  (at level 61, pat pattern, m at next level, right associativity) : monad_scope.
Notation "m ;;; k" := (bind m (fun _ => k))
  (at level 61, right associativity) : monad_scope.
Open Scope monad_scope.

(** ** Python string helpers *)

Definition nl : string := String (ascii_of_nat 10) EmptyString.

(** [sep.join(parts)] *)
Fixpoint join (sep : string) (parts : list string) : string :=
  match parts with
  | [] => ""
  | [s] => s
  | s :: rest => s ++ sep ++ join sep rest
  end.

(** [s[:n]] *)
Fixpoint take_prefix (n : nat) (s : string) : string :=
  match n, s with
  | O, _ => ""
  | _, EmptyString => ""
  | S n', String c s' => String c (take_prefix n' s')
  end.

(** [s.startswith(p)] *)
Fixpoint startswith (p s : string) : bool :=
  match p, s with
  | EmptyString, _ => true
  | String _ _, EmptyString => false
  | String a p', String b s' => Ascii.eqb a b && startswith p' s'
  end.

(** [needle in hay] *)
Fixpoint str_in (needle hay : string) : bool :=
  startswith needle hay ||
  match hay with
  | EmptyString => false
  | String _ hay' => str_in needle hay'
  end.

(** ** The collaborators

    What the services are given from outside:
    - [tick]: how the clock moves between two readings;
    - [uuid4]: the [n]-th identifier drawn from [uuid.uuid4()];
    - [llm_invoke n msgs]: what [self.llm.invoke(msgs)] does on the call
      number [n], a reply or a raised exception;
    - [similarity_search_with_score n query k]: the same for the vector
      store;
    - [initialized]: whether [_initialize_llm] set up the model, the
      embeddings, the vector store and the graph. *)

Record Collaborators := mkCollaborators {
  tick : datetime -> datetime;
  uuid4 : nat -> string;
  llm_invoke : nat -> list BaseMessage -> Exception + BaseMessage;
  similarity_search_with_score :
    nat -> string -> nat -> Exception + list (Document * float);
  initialized : bool
}.

Section Service.

Variable env : Collaborators.

(** [datetime.now(timezone.utc)] reads the clock, which then moves on. *)

Definition now : M datetime :=
  fun w => (Returned (clock w), set_clock (tick env (clock w)) w).

(** ** The conversation store ([app/services/mongodb.py]) *)

(** [collection.find_one({"conversation_id": cid})]: the first match. *)
Fixpoint find_one (cid : string) (docs : list ConversationHistory)
  : option ConversationHistory :=
  match docs with
  | [] => None
  | doc :: rest =>
      if String.eqb (conversation_id doc) cid then Some doc else find_one cid rest
  end.

(** [collection.update_one({"conversation_id": cid}, {"$set": d}, upsert=True)]
    where [d] carries every field: the first match becomes [d]; without a
    match [d] is inserted. *)
Fixpoint update_one (cid : string) (d : ConversationHistory)
  (docs : list ConversationHistory) : list ConversationHistory :=
  match docs with
  | [] => [d]
  | doc :: rest =>
      if String.eqb (conversation_id doc) cid then d :: rest
      else doc :: update_one cid d rest
  end.

(** [collection.delete_one({"conversation_id": cid})]: the remaining
    documents and [deleted_count]. *)
Fixpoint delete_one (cid : string) (docs : list ConversationHistory)
  : list ConversationHistory * nat :=
  match docs with
  | [] => ([], O)
  | doc :: rest =>
      if String.eqb (conversation_id doc) cid then (rest, 1%nat)
      else let (rest', n) := delete_one cid rest in (doc :: rest', n)
  end.

Definition with_updated_at (t : datetime) (c : ConversationHistory) : ConversationHistory :=
  mkConversationHistory (conversation_id c) (messages c) (title c) (created_at c) t.

Definition save_conversation (conversation : ConversationHistory) : M bool :=
  w <- get_world ;;
  match collection w with
  | None => ret false
  | Some docs =>
      t <- now ;;
      let conversation_dict := with_updated_at t conversation in
      modify (set_collection
                (Some (update_one (conversation_id conversation) conversation_dict docs))) ;;;
      ret true
  end.

Definition get_conversation (cid : string) : M (option ConversationHistory) :=
  w <- get_world ;;
  match collection w with
  | None => ret None
  | Some docs => ret (find_one cid docs)
  end.

(** [cursor.sort("updated_at", -1)], as a stable insertion sort. *)
Fixpoint insert_desc (d : ConversationHistory) (docs : list ConversationHistory)
  : list ConversationHistory :=
  match docs with
  | [] => [d]
  | x :: rest =>
      if updated_at x <=? updated_at d then d :: docs
      else x :: insert_desc d rest
  end.

Definition sort_updated_at_desc (docs : list ConversationHistory)
  : list ConversationHistory :=
  fold_right insert_desc [] docs.

Record ConversationSummary := mkConversationSummary {
  summary_conversation_id : string;
  message_count : nat;
  summary_created_at : option datetime;
  summary_updated_at : option datetime;
  last_message : string
}.

(** [doc["messages"][-1]["content"][:50] + "..." if doc.get("messages") else ""] *)
Definition last_message_of (msgs : list ChatMessage) : string :=
  match rev msgs with
  | [] => ""
  | m :: _ => take_prefix 50 (content m) ++ "..."
  end.

Definition conversation_summary (doc : ConversationHistory) : ConversationSummary :=
  mkConversationSummary
    (conversation_id doc)
    (List.length (messages doc))
    (Some (created_at doc))
    (Some (updated_at doc))
    (last_message_of (messages doc)).

Definition list_conversations : M (list ConversationSummary) :=
  w <- get_world ;;
  match collection w with
  | None => ret []
  | Some docs => ret (map conversation_summary (sort_updated_at_desc docs))
  end.

Definition delete_conversation (cid : string) : M bool :=
  w <- get_world ;;
  match collection w with
  | None => ret false
  | Some docs =>
      let (rest, deleted_count) := delete_one cid docs in
      modify (set_collection (Some rest)) ;;;
      ret (0 <? deleted_count)%nat
  end.

(** ** The chatbot service ([app/services/chatbot.py]) *)

Definition openai_model : string := "gpt-3.5-turbo".

(** [web_search] returns the empty list before doing anything else. *)
Definition web_search (query : string) : M (list string) :=
  modify (log_web query) ;;;
  ret [].

Definition llm (msgs : list BaseMessage) : M BaseMessage :=
  fun w =>
    match llm_invoke env (List.length (llm_calls w)) msgs with
    | inl e => (Raised e, log_llm msgs w)
    | inr reply => (Returned reply, log_llm msgs w)
    end.

Definition vector_store (query : string) (k : nat) : M (list (Document * float)) :=
  fun w =>
    match similarity_search_with_score env (List.length (vector_calls w)) query k with
    | inl e => (Raised e, log_vector query w)
    | inr found => (Returned found, log_vector query w)
    end.

(** [[doc for doc, score in relevant_docs if score > threshold]] *)
Definition docs_above (threshold : float) (found : list (Document * float))
  : list Document :=
  map fst (filter (fun ds => PrimFloat.ltb threshold (snd ds)) found).

Definition aget_context (message : string) : M string :=
  relevant_docs <-
    try_except
      (found <- vector_store message 5%nat ;;
       ret (docs_above 0.9%float found))
      (fun _ => ret []) ;;
  match relevant_docs with
  | [] =>
      web_results <- web_search message ;;
      ret (join " " web_results)
  | _ => ret (join " " (map page_content relevant_docs))
  end.

Definition get_context (message : string) : M string :=
  relevant_docs <-
    try_except
      (found <- vector_store message 5%nat ;;
       ret (docs_above 0.7%float found))
      (fun _ => ret []) ;;
  match relevant_docs with
  | [] =>
      let web_results : list string := [] in
      ret (join " " web_results)
  | _ => ret (join " " (map page_content relevant_docs))
  end.

Definition chat_node (msgs : list BaseMessage) : M (list MessageLike) :=
  response <- llm msgs ;;
  ret [IsMessage response].

(** [messages.pop()] *)
Definition pop {A} (l : list A) : option (list A * A) :=
  match rev l with
  | [] => None
  | x :: r => Some (rev r, x)
  end.

Definition indent : string := "            ".

(** The f-string of [build_topic_node]. *)
Definition lesson_prompt (context user_content : string) : string :=
  nl ++
  indent ++ "Context: " ++ nl ++
  indent ++ "```md" ++ nl ++
  indent ++ context ++ nl ++
  indent ++ "```" ++ nl ++
  indent ++ "Build a structured lesson for beginners about the following users's topic and above context:" ++ nl ++
  indent ++ "User message:" ++ nl ++
  indent ++ user_content ++ nl ++
  nl ++
  indent ++ "--------------------------------" ++ nl ++
  indent ++ "The Output should be in the following format:" ++ nl ++
  indent ++ "<h4><topic>Summarized topic from user message</topic></h4>" ++ nl ++
  indent ++ "<lesson>Generated a lesson as HTML format</lesson>" ++ nl ++
  indent ++ "--------------------------------" ++ nl ++
  indent ++ "IMPORTANT:" ++ nl ++
  indent ++ "- remove <br> tags in output" ++ nl ++
  indent.

Definition build_topic_node (msgs : list BaseMessage) : M (list MessageLike) :=
  response <-
    try_except
      (match pop msgs with
       | None => raise IndexError
       | Some (rest, user_message) =>
           let message := msg_content user_message in
           context <- get_context message ;;
           let user_message' :=
             mkBaseMessage (msg_class user_message)
                           (lesson_prompt context (msg_content user_message)) in
           reply <- llm (rest ++ [user_message'])%list ;;
           ret (IsMessage reply)
       end)
      (fun _ => ret (IsStr "Error building topic")) ;;
  ret [response].

(** The loop of [is_touch_lesson]. *)
Fixpoint lesson_is_generated (msgs : list ChatMessage) : bool :=
  match msgs with
  | [] => false
  | msg :: rest =>
      if String.eqb (role msg) "assistant" && str_in "<lesson>" (content msg)
      then true
      else lesson_is_generated rest
  end.

Record ConversationState := mkConversationState {
  state_messages : list BaseMessage;
  state_conversation_id : string
}.

Definition is_touch_lesson (state : ConversationState) : M string :=
  conversation <- get_conversation (state_conversation_id state) ;;
  match conversation with
  | None => raise AttributeError
  | Some c =>
      if lesson_is_generated (messages c) then ret "generated"
      else ret "not_generated"
  end.

(** The reducer of the ["messages"] channel, [add_messages]: the update
    is appended, a bare string being read as a human message. *)
Definition as_message (m : MessageLike) : BaseMessage :=
  match m with
  | IsMessage b => b
  | IsStr s => mkBaseMessage HumanMessage s
  end.

Definition add_messages (left : list BaseMessage) (right : list MessageLike)
  : list BaseMessage :=
  (left ++ map as_message right)%list.

(** The compiled graph: one conditional edge from the start to either
    node, each followed by the end.  [build_topic_node] rewrites the last
    message of the graph's own list in place; that list holds the objects
    built by [_convert_to_langchain_messages], not the conversation's
    [ChatMessage]s, and [chat] reads only the last message of the result,
    which is the node's update. *)
Definition graph_ainvoke (initial_state : ConversationState) : M ConversationState :=
  branch <- is_touch_lesson initial_state ;;
  update <-
    (if String.eqb branch "not_generated" then build_topic_node (state_messages initial_state)
     else chat_node (state_messages initial_state)) ;;
  ret (mkConversationState
         (add_messages (state_messages initial_state) update)
         (state_conversation_id initial_state)).

Definition fresh_uuid : M string :=
  fun w => (Returned (uuid4 env (uuid_count w)), set_uuid_count (S (uuid_count w)) w).

Definition create_conversation (title : option string) : M string :=
  cid <- fresh_uuid ;;
  created <- now ;;
  updated <- now ;;
  let conversation := mkConversationHistory cid [] title created updated in
  save_conversation conversation ;;;
  ret cid.

Fixpoint _convert_to_langchain_messages (msgs : list ChatMessage) : list BaseMessage :=
  match msgs with
  | [] => []
  | msg :: rest =>
      if String.eqb (role msg) "user"
      then mkBaseMessage HumanMessage (content msg) :: _convert_to_langchain_messages rest
      else if String.eqb (role msg) "assistant"
      then mkBaseMessage AIMessage (content msg) :: _convert_to_langchain_messages rest
      else _convert_to_langchain_messages rest
  end.

Definition role_of_class (c : MessageClass) : string :=
  match c with
  | HumanMessage => "user"
  | AIMessage => "assistant"
  | OtherMessage => "system"
  end.

Definition _convert_from_langchain_message (message : BaseMessage) : M ChatMessage :=
  let role := role_of_class (msg_class message) in
  t <- now ;;
  ret (mkChatMessage role (msg_content message) t).

(** The f-string [augmented_message] of [chat]. *)
Definition augmented_message (context message : string) : string :=
  "CONTEXT:" ++ nl ++ "```md" ++ nl ++ context ++ nl ++ "```" ++ nl ++
  "-------------" ++ nl ++ "USER MESSAGE:" ++ nl ++ message.

Record ChatResult := mkChatResult {
  result_message : string;
  result_conversation_id : string;
  result_model : string;
  result_timestamp : datetime
}.

(** [not conversation_id] for an [Optional[str]]. *)
Definition absent (requested_id : option string) : bool :=
  match requested_id with
  | None => true
  | Some s => String.eqb s ""
  end.

Definition chat (message : string) (requested_id : option string) : M ChatResult :=
  if negb (initialized env)
  then raise (ValueError "OpenAI client not initialized. Please provide a valid API key.")
  else
    cid <-
      (if absent requested_id then create_conversation (Some message)
       else ret (match requested_id with Some s => s | None => "" end)) ;;
    conversation <- get_conversation cid ;;
    '(cid, conversation) <-
      (match conversation with
       | Some _ => ret (cid, conversation)
       | None =>
           cid' <- create_conversation (Some message) ;;
           conversation' <- get_conversation cid' ;;
           ret (cid', conversation')
       end) ;;
    t <- now ;;
    let user_message := mkChatMessage "user" message t in
    match conversation with
    | None => raise AttributeError
    | Some conversation =>
        let msgs := (messages conversation ++ [user_message])%list in
        context <- aget_context message ;;
        let augmented := augmented_message context message in
        let langchain_messages := _convert_to_langchain_messages msgs in
        let initial_state := mkConversationState langchain_messages cid in
        result <- graph_ainvoke initial_state ;;
        match pop (state_messages result) with
        | None => raise IndexError
        | Some (_, ai_response) =>
            ai_message <- _convert_from_langchain_message ai_response ;;
            let new_title :=
              match title conversation with
              | None => Some message
              | Some old => Some old
              end in
            let msgs := (msgs ++ [ai_message])%list in
            updated <- now ;;
            save_conversation
              (mkConversationHistory (conversation_id conversation)
                 msgs new_title (created_at conversation) updated) ;;;
            ret (mkChatResult (content ai_message) cid openai_model
                              (timestamp ai_message))
        end
    end.

End Service.

(** ** Sample collaborators and worlds

    Used to run the services on concrete inputs. *)

Definition tick_one (t : datetime) : datetime := t + 1.

Definition sample_uuid4 (n : nat) : string :=
  match n with
  | O => "c-0"
  | 1%nat => "c-1"
  | _ => "c-n"
  end.

Definition llm_down (n : nat) (msgs : list BaseMessage) : Exception + BaseMessage :=
  inl (CollaboratorError "model unavailable").

Definition llm_lesson (n : nat) (msgs : list BaseMessage) : Exception + BaseMessage :=
  inr (mkBaseMessage AIMessage "<h4><topic>TCP</topic></h4><lesson>Three steps</lesson>").

Definition search_nothing (n : nat) (query : string) (k : nat)
  : Exception + list (Document * float) :=
  inr [].

Definition search_down (n : nat) (query : string) (k : nat)
  : Exception + list (Document * float) :=
  inl (CollaboratorError "index unavailable").

Definition three_passages : list (Document * float) :=
  [(mkDocument "alpha", 0.95%float);
   (mkDocument "beta", 0.8%float);
   (mkDocument "gamma", 0.6%float)].

Definition search_three (n : nat) (query : string) (k : nat)
  : Exception + list (Document * float) :=
  inr three_passages.

Definition env_down : Collaborators :=
  mkCollaborators tick_one sample_uuid4 llm_down search_nothing true.

Definition env_up : Collaborators :=
  mkCollaborators tick_one sample_uuid4 llm_lesson search_three true.

Definition env_no_index : Collaborators :=
  mkCollaborators tick_one sample_uuid4 llm_lesson search_down true.

Definition empty_world : World := mkWorld (Some []) 100 0 [] [] [].

Definition taught : ConversationHistory :=
  mkConversationHistory "c-7"
    [mkChatMessage "user" "Explain TCP handshakes" 10;
     mkChatMessage "assistant" "<h4><topic>TCP</topic></h4><lesson>Three steps</lesson>" 11;
     mkChatMessage "user" "And UDP?" 20;
     mkChatMessage "assistant" "UDP has no handshake." 21]
    (Some "Explain TCP handshakes") 9 23.

Definition untitled : ConversationHistory :=
  mkConversationHistory "c-8" [] None 30 32.

Definition taught_world : World := mkWorld (Some [taught; untitled]) 100 0 [] [] [].

(** The first turn of a new conversation, run on the sample world. *)
Definition first_turn_outcome : Outcome ChatResult :=
  Eval vm_compute in fst (chat env_up "Explain TCP handshakes" None empty_world).

Definition first_turn_world : World :=
  Eval vm_compute in snd (chat env_up "Explain TCP handshakes" None empty_world).

(** A continuation turn on the sample conversation "c-7". *)
Definition continuation_world : World :=
  Eval vm_compute in snd (chat env_up "More?" (Some "c-7") taught_world).

(** ** The rest of the chatbot service

    [get_conversation_history] renders a stored conversation; the
    [isoformat] of a timestamp is kept as the instant.  The service's
    [get_conversation], [list_conversations] and [delete_conversation]
    hand over to the store. *)

Record HistoryEntry := mkHistoryEntry {
  entry_role : string;
  entry_content : string;
  entry_timestamp : datetime
}.

Definition history_entry (msg : ChatMessage) : HistoryEntry :=
  mkHistoryEntry (role msg) (content msg) (timestamp msg).

Definition get_conversation_history (cid : string) : M (option (list HistoryEntry)) :=
  conversation <- get_conversation cid ;;
  match conversation with
  | None => ret None
  | Some c => ret (Some (map history_entry (messages c)))
  end.

(** The global [chatbot_service], as the endpoints call it. *)
Module chatbot_service.

Definition chat := chat.
Definition create_conversation := create_conversation.
Definition get_conversation := get_conversation.
Definition get_conversation_history := get_conversation_history.
Definition list_conversations := list_conversations.
Definition delete_conversation := delete_conversation.

End chatbot_service.

(** ** The HTTP endpoints ([app/api/chat.py])

    An endpoint answers with a status code and a body, or raises an
    [HTTPException].  The detail of an exception is a fixed text, or a
    prefix followed by [str(e)] for the exception [e] that was caught;
    the text of [str(e)] is not modelled.  Request validation is done by
    the framework before the endpoint runs and is not part of it. *)

Module Api.

Inductive Detail :=
| Text (s : string)
| Failure (prefix : string) (e : Exception).

Inductive HttpResult (A : Type) :=
| Answer (status_code : nat) (body : A)
| HTTPException (status_code : nat) (detail : Detail).
Arguments HTTPException {A} status_code detail.

Definition Endpoint (A : Type) := World -> HttpResult A * World.

Definition HTTP_200_OK : nat := 200.
Definition HTTP_201_CREATED : nat := 201.
Definition HTTP_204_NO_CONTENT : nat := 204.
Definition HTTP_404_NOT_FOUND : nat := 404.
Definition HTTP_500_INTERNAL_SERVER_ERROR : nat := 500.

Record ChatRequest := mkChatRequest {
  request_message : string;
  request_conversation_id : option string;
  request_model : option string
}.

Record HistoryResponse := mkHistoryResponse {
  history_conversation_id : string;
  history_messages : list HistoryEntry;
  history_title : option string
}.

Section Endpoints.

Variable env : Collaborators.

Definition chat (request : ChatRequest) : Endpoint ChatResult :=
  fun w =>
    match chatbot_service.chat env (request_message request)
            (request_conversation_id request) w with
    | (Returned result, w') =>
        (Answer HTTP_200_OK
           (mkChatResult (result_message result) (result_conversation_id result)
                         (result_model result) (result_timestamp result)), w')
    | (Raised e, w') =>
        (HTTPException HTTP_500_INTERNAL_SERVER_ERROR
           (Failure "Failed to process chat message: " e), w')
    end.

Definition create_conversation (title : option string) : Endpoint string :=
  fun w =>
    match chatbot_service.create_conversation env title w with
    | (Returned conversation_id, w') => (Answer HTTP_201_CREATED conversation_id, w')
    | (Raised e, w') =>
        (HTTPException HTTP_500_INTERNAL_SERVER_ERROR
           (Failure "Failed to create conversation: " e), w')
    end.

Definition get_conversation_history (cid : string) : Endpoint HistoryResponse :=
  fun w =>
    match (history <- chatbot_service.get_conversation_history cid ;;
           conversation <- chatbot_service.get_conversation cid ;;
           ret (history, conversation)) w with
    | (Returned (None, _), w') =>
        (HTTPException HTTP_404_NOT_FOUND (Text "Conversation not found"), w')
    | (Returned (Some history, Some conversation), w') =>
        (Answer HTTP_200_OK (mkHistoryResponse cid history (title conversation)), w')
    | (Returned (Some _, None), w') =>
        (HTTPException HTTP_500_INTERNAL_SERVER_ERROR
           (Failure "Failed to retrieve conversation history: " AttributeError), w')
    | (Raised e, w') =>
        (HTTPException HTTP_500_INTERNAL_SERVER_ERROR
           (Failure "Failed to retrieve conversation history: " e), w')
    end.

Definition list_conversations : Endpoint (list ConversationSummary) :=
  fun w =>
    match chatbot_service.list_conversations w with
    | (Returned conversations, w') => (Answer HTTP_200_OK conversations, w')
    | (Raised e, w') =>
        (HTTPException HTTP_500_INTERNAL_SERVER_ERROR
           (Failure "Failed to list conversations: " e), w')
    end.

Definition delete_conversation (cid : string) : Endpoint unit :=
  fun w =>
    match chatbot_service.delete_conversation cid w with
    | (Returned deleted, w') =>
        if negb deleted
        then (HTTPException HTTP_404_NOT_FOUND (Text "Conversation not found"), w')
        else (Answer HTTP_204_NO_CONTENT tt, w')
    | (Raised e, w') =>
        (HTTPException HTTP_500_INTERNAL_SERVER_ERROR
           (Failure "Failed to delete conversation: " e), w')
    end.

End Endpoints.

End Api.

(** ** Vocabulary of the properties *)

(** The roles that [_convert_to_langchain_messages] knows. *)
Definition is_dialogue (msg : ChatMessage) : bool :=
  String.eqb (role msg) "user" || String.eqb (role msg) "assistant".

(** The message built for a message of a known role. *)
Definition to_langchain (msg : ChatMessage) : BaseMessage :=
  mkBaseMessage (if String.eqb (role msg) "user" then HumanMessage else AIMessage)
                (content msg).

(** An assistant message whose content contains the lesson marker. *)
Definition is_lesson (msg : ChatMessage) : Prop :=
  role msg = "assistant" /\ exists pre post, content msg = pre ++ "<lesson>" ++ post.

(** [score > threshold] *)
Definition passes (threshold : float) (ds : Document * float) : bool :=
  PrimFloat.ltb threshold (snd ds).

Definition passage_text (ds : Document * float) : string := page_content (fst ds).

(** Descending order of [updated_at]. *)
Definition newer_first (a b : ConversationHistory) : Prop :=
  updated_at b <= updated_at a.

(** What a computation may leave untouched: the store, the clock and the
    identifier source. *)
Definition same_store (w w' : World) : Prop :=
  collection w' = collection w /\ clock w' = clock w /\ uuid_count w' = uuid_count w.

(** The end of [graph_ainvoke]: the update of the node goes through the
    reducer. *)
Definition finish_graph (state : ConversationState) (update : list MessageLike)
  : M ConversationState :=
  ret (mkConversationState (add_messages (state_messages state) update)
                           (state_conversation_id state)).

(** The body of [chat] from the extraction of the reply on. *)
Definition persist_reply (env : Collaborators) (message cid : string)
  (conversation : ConversationHistory) (msgs : list ChatMessage)
  (result : ConversationState) : M ChatResult :=
  match pop (state_messages result) with
  | None => raise IndexError
  | Some (_, ai_response) =>
      ai_message <- _convert_from_langchain_message env ai_response ;;
      let new_title :=
        match title conversation with
        | None => Some message
        | Some old => Some old
        end in
      let msgs := (msgs ++ [ai_message])%list in
      updated <- now env ;;
      save_conversation env
        (mkConversationHistory (conversation_id conversation)
           msgs new_title (created_at conversation) updated) ;;;
      ret (mkChatResult (content ai_message) cid openai_model (timestamp ai_message))
  end.

(** The body of [chat] from the user message on, for the resolved
    conversation [conversation] stored under [cid]. *)
Definition turn (env : Collaborators) (message cid : string)
  (conversation : ConversationHistory) : M ChatResult :=
  t <- now env ;;
  let user_message := mkChatMessage "user" message t in
  let msgs := (messages conversation ++ [user_message])%list in
  context <- aget_context env message ;;
  let langchain_messages := _convert_to_langchain_messages msgs in
  let initial_state := mkConversationState langchain_messages cid in
  result <- graph_ainvoke env initial_state ;;
  persist_reply env message cid conversation msgs result.

(** The conversation as [chat] saves it at the end of a turn that began
    at the instant [t0] and got the reply [ai_response]. *)
Definition turn_record (env : Collaborators) (c : ConversationHistory)
  (message : string) (t0 : datetime) (ai_response : BaseMessage) : ConversationHistory :=
  mkConversationHistory
    (conversation_id c)
    (messages c ++
     [mkChatMessage "user" message t0;
      mkChatMessage (role_of_class (msg_class ai_response)) (msg_content ai_response)
                    (tick env t0)])
    (match title c with None => Some message | Some old => Some old end)
    (created_at c)
    (tick env (tick env (tick env t0))).

(** The conversation as [create_conversation] saves it. *)
Definition created_record (env : Collaborators) (title : option string) (w : World)
  : ConversationHistory :=
  mkConversationHistory (uuid4 env (uuid_count w)) [] title (clock w)
                        (tick env (tick env (clock w))).

(** The world after [create_conversation] on a connected store. *)
Definition created_world (env : Collaborators) (title : option string) (w : World)
  (docs : list ConversationHistory) : World :=
  mkWorld (Some (update_one (uuid4 env (uuid_count w)) (created_record env title w) docs))
          (tick env (tick env (tick env (clock w))))
          (S (uuid_count w)) (llm_calls w) (vector_calls w) (web_calls w).

(** A conversation is created when no identifier is given, or when the
    given one is not in the store. *)
Definition unresolved (requested_id : option string) (docs : list ConversationHistory)
  : Prop :=
  absent requested_id = true \/
  exists cid, requested_id = Some cid /\ find_one cid docs = None.

(** The initial state that [chat] hands to the graph. *)
Definition graph_input (c : ConversationHistory) (message : string) (t0 : datetime)
  (cid : string) : ConversationState :=
  mkConversationState
    (_convert_to_langchain_messages (messages c ++ [mkChatMessage "user" message t0]))
    cid.

(** The conversation stored under an identifier. *)
Definition stored (w : World) (cid : string) : option ConversationHistory :=
  match collection w with
  | Some docs => find_one cid docs
  | None => None
  end.

(** Every stored conversation was updated no earlier than it was created,
    and no later than the present. *)
Definition timely (w : World) : Prop :=
  forall docs, collection w = Some docs ->
    Forall (fun d => created_at d <= updated_at d /\ updated_at d <= clock w) docs.

(** The worlds the service can be in: it starts connected to an empty
    store, and then conversations are created, turns are taken,
    conversations are deleted, and conversations built no later than the
    present are saved directly. *)
Inductive reachable (env : Collaborators) : World -> Prop :=
| reach_start w :
    collection w = Some [] -> reachable env w
| reach_chat w message requested_id out w' :
    reachable env w -> chat env message requested_id w = (out, w') -> reachable env w'
| reach_create w title cid w' :
    reachable env w -> create_conversation env title w = (Returned cid, w') ->
    reachable env w'
| reach_delete w cid deleted w' :
    reachable env w -> delete_conversation cid w = (Returned deleted, w') ->
    reachable env w'
| reach_save w conversation saved w' :
    reachable env w -> created_at conversation <= clock w ->
    save_conversation env conversation w = (Returned saved, w') ->
    reachable env w'.

(** The converted history of [c] followed by one human message. *)
Definition sent_history (c : ConversationHistory) (last_content : string)
  : list BaseMessage :=
  (_convert_to_langchain_messages (messages c) ++
   [mkBaseMessage HumanMessage last_content])%list.

(** The placeholder of [build_topic_node] as the graph reads it. *)
Definition placeholder : BaseMessage :=
  mkBaseMessage HumanMessage "Error building topic".

(** The preamble in the words of the specification:
    "CONTEXT:\n<context>\n-------------\nUSER MESSAGE:\n<user_text>". *)
Definition claimed_preamble (context user_text : string) : string :=
  "CONTEXT:" ++ nl ++ context ++ nl ++ "-------------" ++ nl ++
  "USER MESSAGE:" ++ nl ++ user_text.

(** The identifiers under which the store holds a document. *)
Definition ids (docs : list ConversationHistory) : list string :=
  map conversation_id docs.

(** [docs'] comes from [docs] by a sequence of upserts, each of a
    document under its own identifier. *)
Inductive upserts : list ConversationHistory -> list ConversationHistory -> Prop :=
| upserts_refl docs : upserts docs docs
| upserts_step docs d docs' :
    upserts (update_one (conversation_id d) d docs) docs' -> upserts docs docs'.

(** The context read off an answer of the index: the texts of the
    passages above the threshold joined by one space, and nothing when
    the index raised. *)
Definition retrieved (threshold : float) (answer : Exception + list (Document * float))
  : string :=
  match answer with
  | inl _ => ""
  | inr found => join " " (map passage_text (filter (passes threshold) found))
  end.

(** Whether an answer of the index has a passage above the threshold. *)
Definition any_above (threshold : float) (answer : Exception + list (Document * float))
  : bool :=
  match answer with
  | inl _ => false
  | inr found => existsb (passes threshold) found
  end.

(** The world in which the graph starts: the clock has been read for the
    user message and [aget_context] has run. *)
Definition after_retrieval (env : Collaborators) (message : string) (w : World) : World :=
  snd (aget_context env message (set_clock (tick env (clock w)) w)).

(** The context that [build_topic_node] retrieves in a turn begun in [w]:
    its query is the second of the turn. *)
Definition lesson_context (env : Collaborators) (message : string) (w : World) : string :=
  retrieved 0.7
    (similarity_search_with_score env (S (List.length (vector_calls w))) message 5).


(** Whether a reply, once stored, counts as a lesson. *)
Definition reply_is_lesson (reply : BaseMessage) : bool :=
  match msg_class reply with
  | AIMessage => str_in "<lesson>" (msg_content reply)
  | _ => false
  end.

(** A failed continuation turn on the sample conversation "c-7". *)
Definition failed_turn_world : World :=
  Eval vm_compute in snd (chat env_down "And QUIC?" (Some "c-7") taught_world).

(** A turn with an identifier that the sample store does not know. *)
Definition unknown_id_turn : Outcome ChatResult * World :=
  Eval vm_compute in chat env_up "Explain TCP handshakes" (Some "c-9") taught_world.

(** The role and the content of a stored message. *)
Definition role_and_content (msg : ChatMessage) : string * string :=
  (role msg, content msg).


(** The sample world with the store disconnected. *)
Definition disconnected_world : World := mkWorld None 100 0 [] [] [].

(** A clock that goes backwards, and a conversation built ahead of the
    clock of the sample worlds. *)
Definition tick_back (t : datetime) : datetime := t - 10.

Definition env_backwards : Collaborators :=
  mkCollaborators tick_back sample_uuid4 llm_lesson search_three true.

Definition future_conversation : ConversationHistory :=
  mkConversationHistory "c-5" [] None 200 200.

(** The collaborators of [env] with an index that, where the index of
    [env] raises, answers that it found nothing. *)
Definition with_quiet_index (env : Collaborators) : Collaborators :=
  mkCollaborators (tick env) (uuid4 env) (llm_invoke env)
    (fun n query k =>
       match similarity_search_with_score env n query k with
       | inl _ => inr []
       | inr found => inr found
       end)
    (initialized env).


(** * Properties *)

(** ** Strings *)

Lemma startswith_spec (p s : string) :
  startswith p s = true <-> exists post, s = p ++ post.
Proof.
  revert s; induction p as [|a p IH]; intros s; simpl.
  - split; [intros _; exists s; reflexivity | reflexivity].
  - destruct s as [|b s].
    + split; [discriminate | intros [post H]; discriminate].
    + rewrite andb_true_iff, Ascii.eqb_eq, IH. split.
      * intros [-> [post ->]]. exists post. reflexivity.
      * intros [post H]. injection H as -> ->. split; [reflexivity | eauto].
Qed.

Lemma str_in_spec (needle hay : string) :
  str_in needle hay = true <-> exists pre post, hay = pre ++ needle ++ post.
Proof.
  induction hay as [|c hay IH].
  - simpl. rewrite orb_false_r, startswith_spec. split.
    + intros [post H]. exists "", post. exact H.
    + intros [pre [post H]]. destruct pre; [exists post; exact H | discriminate].
  - cbn [str_in]. rewrite orb_true_iff, startswith_spec, IH. split.
    + intros [[post H] | [pre [post H]]].
      * exists "", post. exact H.
      * exists (String c pre), post. simpl. now rewrite H.
    + intros [pre [post H]]. destruct pre as [|c' pre].
      * left. exists post. exact H.
      * right. simpl in H. injection H as _ H. eauto.
Qed.

Lemma take_prefix_length (n : nat) (s : string) :
  String.length (take_prefix n s) = Nat.min n (String.length s).
Proof.
  revert s; induction n as [|n IH]; intros [|c s]; simpl; auto.
Qed.

Lemma take_prefix_is_prefix (n : nat) (s : string) :
  exists rest, s = take_prefix n s ++ rest.
Proof.
  revert s; induction n as [|n IH]; intros s.
  - exists s. destruct s; reflexivity.
  - destruct s as [|c s]; [exists ""; reflexivity|].
    destruct (IH s) as [rest H]. exists rest. simpl. now rewrite <- H.
Qed.

(** ** Message conversion *)

Lemma convert_app (xs ys : list ChatMessage) :
  _convert_to_langchain_messages (xs ++ ys) =
  (_convert_to_langchain_messages xs ++ _convert_to_langchain_messages ys)%list.
Proof.
  induction xs as [|x xs IH]; simpl; [reflexivity|].
  destruct (String.eqb (role x) "user"); [now rewrite IH|].
  destruct (String.eqb (role x) "assistant"); now rewrite IH.
Qed.

Lemma convert_filter_map (msgs : list ChatMessage) :
  _convert_to_langchain_messages msgs = map to_langchain (filter is_dialogue msgs).
Proof.
  induction msgs as [|m msgs IH]; simpl; [reflexivity|].
  unfold is_dialogue, to_langchain.
  destruct (String.eqb (role m) "user") eqn:Hu; simpl.
  - now rewrite Hu, IH.
  - destruct (String.eqb (role m) "assistant"); simpl; [rewrite Hu|]; now rewrite IH.
Qed.

(** C10: the conversion to the model-facing sequence maps the messages of
    role "user" and "assistant" in order (to a human and an AI message
    with the same content) and drops every message of another role; the
    reverse conversion gives the role "system" to a message that is
    neither human nor AI, and such a message is dropped on the way back. *)
Theorem convert_keeps_dialogue_drops_rest :
  (forall msgs,
     _convert_to_langchain_messages msgs = map to_langchain (filter is_dialogue msgs)) /\
  (forall pre msg post,
     role msg <> "user" -> role msg <> "assistant" ->
     _convert_to_langchain_messages (pre ++ msg :: post) =
     _convert_to_langchain_messages (pre ++ post)) /\
  (forall env text w,
     exists t,
       fst (_convert_from_langchain_message env (mkBaseMessage OtherMessage text) w) =
         Returned (mkChatMessage "system" text t) /\
       _convert_to_langchain_messages [mkChatMessage "system" text t] = []).
Proof.
  split; [exact convert_filter_map|]. split.
  - intros pre msg post Hu Ha.
    rewrite !convert_app. f_equal. simpl.
    apply String.eqb_neq in Hu, Ha. now rewrite Hu, Ha.
  - intros env text w. exists (clock w). split; reflexivity.
Qed.

Lemma convert_keeps_dialogue_drops_rest_witness :
  _convert_to_langchain_messages
    ([mkChatMessage "user" "hi" 1] ++
     mkChatMessage "system" "note" 2 :: [mkChatMessage "assistant" "hello" 3]) =
  _convert_to_langchain_messages
    ([mkChatMessage "user" "hi" 1] ++ [mkChatMessage "assistant" "hello" 3]).
Proof.
  apply (proj1 (proj2 convert_keeps_dialogue_drops_rest)); simpl; discriminate.
Defined.

(** ** Turn classification *)

Lemma lesson_is_generated_spec (msgs : list ChatMessage) :
  lesson_is_generated msgs = true <-> exists msg, In msg msgs /\ is_lesson msg.
Proof.
  unfold is_lesson. induction msgs as [|m msgs IH]; cbn [lesson_is_generated In].
  - split; [discriminate | intros [? [[] _]]].
  - destruct (String.eqb (role m) "assistant" && str_in "<lesson>" (content m)) eqn:E.
    + split; [intros _ | reflexivity].
      apply andb_true_iff in E as [Hr Hc].
      apply String.eqb_eq in Hr. apply str_in_spec in Hc. eauto.
    + rewrite IH. split.
      * intros [x [Hin Hx]]. eauto.
      * intros [x [[<- | Hin] [Hr Hc]]]; [|eauto].
        apply String.eqb_eq in Hr. apply str_in_spec in Hc.
        rewrite Hr, Hc in E. discriminate.
Qed.

(** C5: for a stored conversation, [is_touch_lesson] answers "generated"
    (the continuation branch) exactly when some assistant message
    anywhere in the history contains the marker "<lesson>", and
    "not_generated" (the first-lesson branch) exactly when none does; it
    always answers, and leaves the world as it was. *)
Theorem is_touch_lesson_scans_history :
  forall env state w docs c,
    collection w = Some docs ->
    find_one (state_conversation_id state) docs = Some c ->
    (is_touch_lesson state w = (Returned "generated", w) <->
       exists msg, In msg (messages c) /\ is_lesson msg) /\
    (is_touch_lesson state w = (Returned "not_generated", w) <->
       ~ exists msg, In msg (messages c) /\ is_lesson msg) /\
    (is_touch_lesson state w = (Returned "generated", w) \/
     is_touch_lesson state w = (Returned "not_generated", w)) /\
    graph_ainvoke env state w =
      (if lesson_is_generated (messages c)
       then bind (chat_node env (state_messages state))
       else bind (build_topic_node env (state_messages state)))
        (fun update =>
           ret (mkConversationState (add_messages (state_messages state) update)
                                    (state_conversation_id state))) w.
Proof.
  intros env state w docs c Hc Hf.
  assert (E : is_touch_lesson state w =
              (Returned (if lesson_is_generated (messages c)
                         then "generated" else "not_generated"), w)).
  { unfold is_touch_lesson, get_conversation, bind, get_world, ret.
    rewrite Hc, Hf. destruct (lesson_is_generated (messages c)); reflexivity. }
  assert (G := lesson_is_generated_spec (messages c)).
  repeat split.
  - rewrite E. destruct (lesson_is_generated (messages c)).
    + intros _. now apply G.
    + discriminate.
  - intros H. apply G in H. now rewrite E, H.
  - rewrite E. destruct (lesson_is_generated (messages c)).
    + discriminate.
    + intros _ H. apply G in H. discriminate.
  - intros H. rewrite E. destruct (lesson_is_generated (messages c)); [|reflexivity].
    exfalso. apply H. now apply G.
  - rewrite E. destruct (lesson_is_generated (messages c)); auto.
  - unfold graph_ainvoke. unfold bind at 1. rewrite E.
    destruct (lesson_is_generated (messages c)); reflexivity.
Qed.

Lemma is_touch_lesson_scans_history_witness :
  is_touch_lesson (mkConversationState [] "c-7") taught_world =
    (Returned "generated", taught_world).
Proof.
  apply (proj2 (proj1 (@is_touch_lesson_scans_history env_up
                         (mkConversationState [] "c-7") taught_world
                         [taught; untitled] taught eq_refl eq_refl))).
  exists (mkChatMessage "assistant"
            "<h4><topic>TCP</topic></h4><lesson>Three steps</lesson>" 11).
  split; [simpl; auto|].
  split; [reflexivity|].
  exists "<h4><topic>TCP</topic></h4>", "Three steps</lesson>". reflexivity.
Defined.

(** ** Context retrieval *)

Lemma docs_above_texts (threshold : float) (found : list (Document * float)) :
  map page_content (docs_above threshold found) =
  map passage_text (filter (passes threshold) found).
Proof. unfold docs_above. now rewrite map_map. Qed.

Lemma docs_above_nil (threshold : float) (found : list (Document * float)) :
  docs_above threshold found = [] <-> filter (passes threshold) found = [].
Proof.
  unfold docs_above. fold (passes threshold).
  destruct (filter (passes threshold) found); simpl; split; congruence.
Qed.

(** C4: when the similarity search answers and at least one passage has a
    score strictly above the threshold (0.7 in [get_context], 0.9 in
    [aget_context]), the context is the texts of exactly the passages
    above the threshold, in the order of the search, joined by one space,
    and web search is not called; for the scores 0.95, 0.8 and 0.6 and
    the threshold 0.7 it is the first two texts. *)
Theorem context_is_passages_above_threshold :
  (forall env query w found,
     similarity_search_with_score env (List.length (vector_calls w)) query 5 = inr found ->
     filter (passes 0.7) found <> [] ->
     get_context env query w =
       (Returned (join " " (map passage_text (filter (passes 0.7) found))),
        log_vector query w) /\
     web_calls (snd (get_context env query w)) = web_calls w) /\
  (forall env query w found,
     similarity_search_with_score env (List.length (vector_calls w)) query 5 = inr found ->
     filter (passes 0.9) found <> [] ->
     aget_context env query w =
       (Returned (join " " (map passage_text (filter (passes 0.9) found))),
        log_vector query w) /\
     web_calls (snd (aget_context env query w)) = web_calls w) /\
  filter (passes 0.7) three_passages =
    [(mkDocument "alpha", 0.95%float); (mkDocument "beta", 0.8%float)] /\
  fst (get_context env_up "tcp" empty_world) = Returned "alpha beta".
Proof.
  split; [|split; [|split; reflexivity]].
  - intros env query w found Hs Hne.
    assert (E : get_context env query w =
                (Returned (join " " (map passage_text (filter (passes 0.7) found))),
                 log_vector query w)).
    { unfold get_context, bind, try_except, vector_store. rewrite Hs.
      unfold ret at 1.
      rewrite <- docs_above_texts.
      destruct (docs_above 0.7 found) eqn:D; [|reflexivity].
      apply docs_above_nil in D. contradiction. }
    split; [exact E | now rewrite E].
  - intros env query w found Hs Hne.
    assert (E : aget_context env query w =
                (Returned (join " " (map passage_text (filter (passes 0.9) found))),
                 log_vector query w)).
    { unfold aget_context, bind, try_except, vector_store. rewrite Hs.
      unfold ret at 1.
      rewrite <- docs_above_texts.
      destruct (docs_above 0.9 found) eqn:D; [|reflexivity].
      apply docs_above_nil in D. contradiction. }
    split; [exact E | now rewrite E].
Qed.

Lemma context_is_passages_above_threshold_witness :
  get_context env_up "tcp" empty_world =
    (Returned "alpha beta", log_vector "tcp" empty_world) /\
  web_calls (snd (get_context env_up "tcp" empty_world)) = [].
Proof.
  apply (proj1 context_is_passages_above_threshold env_up "tcp" empty_world
           three_passages).
  - reflexivity.
  - vm_compute. discriminate.
Defined.

(** [get_context] never calls web search: with no passage above the
    threshold, or with a failing index, its context is empty. *)
Lemma get_context_no_passage env query w :
  match similarity_search_with_score env (List.length (vector_calls w)) query 5 with
  | inr found => filter (passes 0.7) found = []
  | inl _ => True
  end ->
  get_context env query w = (Returned "", log_vector query w).
Proof.
  unfold get_context, bind, try_except, vector_store.
  destruct (similarity_search_with_score _ _ _ _) as [e|found]; intros H.
  - reflexivity.
  - apply docs_above_nil in H. unfold ret at 1. now rewrite H.
Qed.

Lemma aget_context_no_passage env query w :
  match similarity_search_with_score env (List.length (vector_calls w)) query 5 with
  | inr found => filter (passes 0.9) found = []
  | inl _ => True
  end ->
  aget_context env query w = (Returned "", log_web query (log_vector query w)).
Proof.
  unfold aget_context, bind, try_except, vector_store.
  destruct (similarity_search_with_score _ _ _ _) as [e|found]; intros H.
  - reflexivity.
  - apply docs_above_nil in H. unfold ret at 1. now rewrite H.
Qed.

(** C3: [get_context] does not fall back to web search.  On every query
    it leaves the log of web searches as it was; with no passage above
    0.7 -- here with an index that finds nothing, and with one that
    fails -- it answers the empty context without any web search, where
    [aget_context] on the same input makes exactly one, for the query. *)
Theorem get_context_skips_web_search :
  (forall env query w, web_calls (snd (get_context env query w)) = web_calls w) /\
  get_context env_down "tcp" empty_world =
    (Returned "", log_vector "tcp" empty_world) /\
  web_calls (snd (get_context env_down "tcp" empty_world)) = [] /\
  get_context env_no_index "tcp" empty_world =
    (Returned "", log_vector "tcp" empty_world) /\
  web_calls (snd (aget_context env_down "tcp" empty_world)) = ["tcp"].
Proof.
  split; [|repeat split; reflexivity].
  intros env query w.
  unfold get_context, bind, try_except, vector_store.
  destruct (similarity_search_with_score _ _ _ _) as [e|found]; [reflexivity|].
  unfold ret at 1. destruct (docs_above 0.7 found); reflexivity.
Qed.

(** ** The first-lesson prompt on an empty history *)

(** C6, as the claim has it, fails: on an empty history the node raises
    nothing and answers with a placeholder. *)
Lemma empty_history_node_returns :
  build_topic_node env_up [] empty_world =
    (Returned [IsStr "Error building topic"], empty_world) /\
  ~ (exists e w', build_topic_node env_up [] empty_world = (Raised e, w')).
Proof.
  split; [reflexivity|].
  intros [e [w' H]]. discriminate H.
Qed.

(** C6 (amended): on an empty history [build_topic_node] raises nothing:
    the failing [pop] is caught by the node's own handler, neither the
    index nor the model is called, the world is left as it was, and the
    update is the bare string "Error building topic", which the graph
    reads as a human message.  Inside [chat] the history handed to the
    graph is never empty, the user message having been appended. *)
Theorem build_topic_node_empty_history :
  (forall env w,
     build_topic_node env [] w = (Returned [IsStr "Error building topic"], w)) /\
  add_messages [] [IsStr "Error building topic"] =
    [mkBaseMessage HumanMessage "Error building topic"] /\
  (forall msgs text t,
     _convert_to_langchain_messages (msgs ++ [mkChatMessage "user" text t]) <> []).
Proof.
  split; [reflexivity|]. split; [reflexivity|].
  intros msgs text t. rewrite convert_app. simpl.
  destruct (_convert_to_langchain_messages msgs); discriminate.
Qed.

(** ** The conversation listing *)

Lemma insert_desc_perm d docs : Permutation (d :: docs) (insert_desc d docs).
Proof.
  induction docs as [|x docs IH]; simpl; [apply Permutation_refl|].
  destruct (updated_at x <=? updated_at d); [apply Permutation_refl|].
  eapply perm_trans; [apply perm_swap|]. now apply perm_skip.
Qed.

Lemma sort_updated_at_desc_perm docs : Permutation docs (sort_updated_at_desc docs).
Proof.
  induction docs as [|d docs IH]; simpl; [constructor|].
  eapply perm_trans; [apply perm_skip, IH | apply insert_desc_perm].
Qed.

Lemma insert_desc_sorted d docs :
  StronglySorted newer_first docs -> StronglySorted newer_first (insert_desc d docs).
Proof.
  induction 1 as [|x docs Hs IH Hall]; simpl.
  - repeat constructor.
  - destruct (updated_at x <=? updated_at d) eqn:E.
    + apply Z.leb_le in E. constructor; [now constructor|].
      constructor; [exact E|].
      eapply Forall_impl; [|exact Hall]. unfold newer_first. intros; lia.
    + apply Z.leb_gt in E. constructor; [exact IH|].
      eapply Permutation_Forall; [apply insert_desc_perm|].
      constructor; [unfold newer_first; lia | exact Hall].
Qed.

Lemma sort_updated_at_desc_sorted docs :
  StronglySorted newer_first (sort_updated_at_desc docs).
Proof.
  induction docs as [|d docs IH]; simpl; [constructor | now apply insert_desc_sorted].
Qed.

Lemma last_message_of_snoc init m :
  last_message_of (init ++ [m]) = take_prefix 50 (content m) ++ "...".
Proof. unfold last_message_of. now rewrite rev_app_distr. Qed.

(** C8: on a connected store [list_conversations] answers one summary per
    stored conversation, those of the stored documents put in descending
    order of [updated_at]; the [last_message] of a summary is empty for a
    conversation without messages, and otherwise the first 50 characters
    of the content of its last message (the whole content when it is
    shorter) followed by "...". *)
Theorem list_conversations_sorted_summaries :
  forall w docs,
    collection w = Some docs ->
    exists ordered,
      list_conversations w = (Returned (map conversation_summary ordered), w) /\
      Permutation docs ordered /\
      StronglySorted newer_first ordered /\
      List.length (map conversation_summary ordered) = List.length docs /\
      (forall d, In d ordered ->
         summary_conversation_id (conversation_summary d) = conversation_id d /\
         (messages d = [] -> last_message (conversation_summary d) = "") /\
         (forall init m, messages d = (init ++ [m])%list ->
            exists head rest,
              last_message (conversation_summary d) = head ++ "..." /\
              content m = head ++ rest /\
              String.length head = Nat.min 50 (String.length (content m)))).
Proof.
  intros w docs Hc. exists (sort_updated_at_desc docs).
  split; [|split; [|split; [|split]]].
  - unfold list_conversations, bind, get_world. now rewrite Hc.
  - apply sort_updated_at_desc_perm.
  - apply sort_updated_at_desc_sorted.
  - rewrite length_map. symmetry. apply Permutation_length, sort_updated_at_desc_perm.
  - intros d _. split; [reflexivity|]. split.
    + intros H. cbn [conversation_summary last_message]. now rewrite H.
    + intros init m H. exists (take_prefix 50 (content m)).
      destruct (take_prefix_is_prefix 50 (content m)) as [rest Hr].
      exists rest. cbn [conversation_summary last_message].
      rewrite H, last_message_of_snoc.
      split; [reflexivity|]. split; [exact Hr | apply take_prefix_length].
Qed.

Lemma list_conversations_sorted_summaries_witness :
  exists ordered,
    list_conversations taught_world =
      (Returned (map conversation_summary ordered), taught_world) /\
    Permutation [taught; untitled] ordered /\
    StronglySorted newer_first ordered /\
    List.length (map conversation_summary ordered) = 2%nat /\
    (forall d, In d ordered ->
       summary_conversation_id (conversation_summary d) = conversation_id d /\
       (messages d = [] -> last_message (conversation_summary d) = "") /\
       (forall init m, messages d = (init ++ [m])%list ->
          exists head rest,
            last_message (conversation_summary d) = head ++ "..." /\
            content m = head ++ rest /\
            String.length head = Nat.min 50 (String.length (content m)))).
Proof.
  exact (@list_conversations_sorted_summaries taught_world [taught; untitled] eq_refl).
Defined.

(** ** Running the monad *)

Lemma bind_returned {A B} (m : M A) (k : A -> M B) w a w1 :
  m w = (Returned a, w1) -> bind m k w = k a w1.
Proof. unfold bind. now intros ->. Qed.

Lemma bind_raised {A B} (m : M A) (k : A -> M B) w e w1 :
  m w = (Raised e, w1) -> bind m k w = (Raised e, w1).
Proof. unfold bind. now intros ->. Qed.

Lemma same_store_refl w : same_store w w.
Proof. repeat split. Qed.

Lemma same_store_trans w1 w2 w3 :
  same_store w1 w2 -> same_store w2 w3 -> same_store w1 w3.
Proof. unfold same_store. intuition congruence. Qed.

Lemma aget_context_total env message w :
  exists context w',
    aget_context env message w = (Returned context, w') /\
    same_store w w' /\ llm_calls w' = llm_calls w.
Proof.
  unfold aget_context, bind, try_except, vector_store.
  destruct (similarity_search_with_score _ _ _ _) as [e|found].
  - do 2 eexists. split; [reflexivity|]. repeat split.
  - unfold ret at 1. destruct (docs_above 0.9 found).
    + do 2 eexists. split; [reflexivity|]. repeat split.
    + do 2 eexists. split; [reflexivity|]. repeat split.
Qed.

Lemma get_context_total env message w :
  exists context,
    get_context env message w = (Returned context, log_vector message w).
Proof.
  unfold get_context, bind, try_except, vector_store.
  destruct (similarity_search_with_score _ _ _ _) as [e|found].
  - eexists. reflexivity.
  - unfold ret at 1. destruct (docs_above 0.7 found); eexists; reflexivity.
Qed.

Lemma chat_node_run env msgs w :
  chat_node env msgs w =
  match llm_invoke env (List.length (llm_calls w)) msgs with
  | inl e => (Raised e, log_llm msgs w)
  | inr reply => (Returned [IsMessage reply], log_llm msgs w)
  end.
Proof.
  unfold chat_node, bind, llm.
  destruct (llm_invoke _ _ _); reflexivity.
Qed.

(** [build_topic_node] never raises and always yields one update. *)
Lemma build_topic_node_total env msgs w :
  exists response w',
    build_topic_node env msgs w = (Returned [response], w') /\ same_store w w'.
Proof.
  unfold build_topic_node, bind at 1, try_except.
  destruct (pop msgs) as [[rest user_message]|].
  - destruct (get_context_total env (msg_content user_message) w) as [context Hc].
    rewrite (bind_returned _ _ _ Hc).
    unfold bind, llm. cbn [llm_calls log_vector].
    destruct (llm_invoke _ _ _).
    + do 2 eexists. split; [reflexivity|]. repeat split.
    + do 2 eexists. split; [reflexivity|]. repeat split.
  - do 2 eexists. split; [reflexivity|]. repeat split.
Qed.

Lemma is_touch_lesson_run state w :
  is_touch_lesson state w =
  match collection w with
  | Some docs =>
      match find_one (state_conversation_id state) docs with
      | Some c =>
          (Returned (if lesson_is_generated (messages c)
                     then "generated" else "not_generated"), w)
      | None => (Raised AttributeError, w)
      end
  | None => (Raised AttributeError, w)
  end.
Proof.
  unfold is_touch_lesson, get_conversation, bind, get_world.
  destruct (collection w) as [docs|]; [|reflexivity].
  unfold ret at 1.
  destruct (find_one _ docs) as [c|]; [|reflexivity].
  destruct (lesson_is_generated (messages c)); reflexivity.
Qed.

Lemma graph_ainvoke_run env state w docs c :
  collection w = Some docs ->
  find_one (state_conversation_id state) docs = Some c ->
  graph_ainvoke env state w =
  (if lesson_is_generated (messages c)
   then bind (chat_node env (state_messages state)) (finish_graph state) w
   else bind (build_topic_node env (state_messages state)) (finish_graph state) w).
Proof.
  intros Hc Hf. unfold graph_ainvoke, bind at 1.
  rewrite is_touch_lesson_run, Hc, Hf.
  destruct (lesson_is_generated (messages c)); reflexivity.
Qed.

(** The graph leaves the store alone, and what it returns is the initial
    messages followed by the one update of the node that ran. *)
Lemma graph_ainvoke_frame env state w out w' :
  graph_ainvoke env state w = (out, w') ->
  same_store w w' /\
  match out with
  | Returned result =>
      exists reply, state_messages result = (state_messages state ++ [reply])%list
  | Raised _ => True
  end.
Proof.
  destruct (collection w) as [docs|] eqn:Hc.
  - destruct (find_one (state_conversation_id state) docs) as [c|] eqn:Hf.
    + rewrite (graph_ainvoke_run env state w Hc Hf).
      destruct (lesson_is_generated (messages c)).
      * unfold bind. rewrite chat_node_run.
        destruct (llm_invoke _ _ _); intros [= <- <-]; (split; [repeat split|]); auto.
        eexists. reflexivity.
      * destruct (build_topic_node_total env (state_messages state) w)
          as [response [w2 [Hr Hs]]].
        rewrite (bind_returned _ _ _ Hr). intros [= <- <-].
        split; [exact Hs|]. eexists. reflexivity.
    + unfold graph_ainvoke, bind at 1. rewrite is_touch_lesson_run, Hc, Hf.
      intros [= <- <-]. split; [apply same_store_refl | exact I].
  - unfold graph_ainvoke, bind at 1. rewrite is_touch_lesson_run, Hc.
    intros [= <- <-]. split; [apply same_store_refl | exact I].
Qed.

(** ** The turn, once the conversation is resolved

    [chat_resolved] and [chat_created] show that [chat] runs [turn], on
    the stored conversation or on the one it has just created. *)

Lemma pop_snoc {A} (l : list A) (x : A) : pop (l ++ [x]) = Some (l, x).
Proof. unfold pop. rewrite rev_app_distr. simpl. now rewrite rev_involutive. Qed.

Lemma find_one_id cid docs c : find_one cid docs = Some c -> conversation_id c = cid.
Proof.
  induction docs as [|d docs IH]; simpl; [discriminate|].
  destruct (String.eqb (conversation_id d) cid) eqn:E; [|exact IH].
  intros [= <-]. now apply String.eqb_eq.
Qed.

Lemma find_one_update_one cid d docs :
  conversation_id d = cid -> find_one cid (update_one cid d docs) = Some d.
Proof.
  intros Hd. induction docs as [|x docs IH]; simpl.
  - now rewrite Hd, String.eqb_refl.
  - destruct (String.eqb (conversation_id x) cid) eqn:E; simpl.
    + now rewrite Hd, String.eqb_refl.
    + now rewrite E.
Qed.

Lemma find_one_update_one_other cid cid' d docs :
  cid' <> cid -> conversation_id d = cid ->
  find_one cid' (update_one cid d docs) = find_one cid' docs.
Proof.
  intros Hne Hd. induction docs as [|x docs IH]; simpl.
  - rewrite Hd. apply String.eqb_neq in Hne.
    now rewrite String.eqb_sym, Hne.
  - destruct (String.eqb (conversation_id x) cid) eqn:E; simpl.
    + apply String.eqb_eq in E. rewrite Hd, E.
      assert (String.eqb cid cid' = false) as ->; [|reflexivity].
      apply String.eqb_neq. congruence.
    + now rewrite IH.
Qed.

Lemma create_conversation_run env title w docs :
  collection w = Some docs ->
  create_conversation env title w =
    (Returned (uuid4 env (uuid_count w)), created_world env title w docs).
Proof.
  intros Hc. unfold create_conversation, bind, fresh_uuid, now, save_conversation,
    get_world, modify, ret. cbn. rewrite Hc. reflexivity.
Qed.

Lemma chat_resolved env message cid w docs c :
  initialized env = true -> cid <> "" ->
  collection w = Some docs -> find_one cid docs = Some c ->
  chat env message (Some cid) w = turn env message cid c w.
Proof.
  intros Hi Hne Hc Hf. unfold chat. rewrite Hi. cbn [negb absent].
  apply String.eqb_neq in Hne. rewrite Hne.
  unfold bind at 1, ret at 1.
  unfold bind at 1, get_conversation at 1, bind at 1, get_world at 1.
  rewrite Hc. unfold ret at 1. rewrite Hf.
  unfold bind at 1, ret at 1. reflexivity.
Qed.

Lemma chat_created env message requested_id w docs :
  initialized env = true ->
  collection w = Some docs ->
  unresolved requested_id docs ->
  chat env message requested_id w =
    turn env message (uuid4 env (uuid_count w))
         (created_record env (Some message) w)
         (created_world env (Some message) w docs).
Proof.
  intros Hi Hc Hu. unfold chat. rewrite Hi. cbn [negb].
  assert (Hfind : find_one (uuid4 env (uuid_count w))
                    (update_one (uuid4 env (uuid_count w))
                       (created_record env (Some message) w) docs) =
                  Some (created_record env (Some message) w))
    by (apply find_one_update_one; reflexivity).
  destruct Hu as [Ha | [cid [-> Hf]]].
  - rewrite Ha.
    rewrite (bind_returned _ _ _ (create_conversation_run env (Some message) w Hc)).
    unfold bind at 1, get_conversation at 1, bind at 1, get_world at 1.
    cbn [collection created_world]. unfold ret at 1. rewrite Hfind.
    unfold bind at 1, ret at 1. reflexivity.
  - destruct (absent (Some cid)) eqn:Ha.
    + rewrite (bind_returned _ _ _ (create_conversation_run env (Some message) w Hc)).
      unfold bind at 1, get_conversation at 1, bind at 1, get_world at 1.
      cbn [collection created_world]. unfold ret at 1. rewrite Hfind.
      unfold bind at 1, ret at 1. reflexivity.
    + unfold bind at 1, ret at 1.
      unfold bind at 1, get_conversation at 1, bind at 1, get_world at 1.
      rewrite Hc. unfold ret at 1. rewrite Hf.
      unfold bind at 1.
      rewrite (bind_returned _ _ _ (create_conversation_run env (Some message) w Hc)).
      unfold bind at 1, get_conversation at 1, bind at 1, get_world at 1.
      cbn [collection created_world]. unfold ret at 1. rewrite Hfind.
      unfold ret at 1. reflexivity.
Qed.

Lemma turn_run env message cid c w :
  exists context w2,
    aget_context env message (set_clock (tick env (clock w)) w) = (Returned context, w2) /\
    same_store (set_clock (tick env (clock w)) w) w2 /\
    llm_calls w2 = llm_calls w /\
    turn env message cid c w =
      bind (graph_ainvoke env (graph_input c message (clock w) cid))
           (persist_reply env message cid c
              (messages c ++ [mkChatMessage "user" message (clock w)]))
           w2.
Proof.
  destruct (aget_context_total env message (set_clock (tick env (clock w)) w))
    as [context [w2 [Ha [Hs Hl]]]].
  exists context, w2. repeat split; try apply Hs; [exact Ha | exact Hl |].
  unfold turn. unfold bind at 1, now at 1.
  rewrite (bind_returned _ _ _ Ha). reflexivity.
Qed.

Lemma persist_reply_run env message cid c msgs pre ai cid' w docs :
  collection w = Some docs ->
  persist_reply env message cid c msgs (mkConversationState (pre ++ [ai]) cid') w =
    (Returned (mkChatResult (msg_content ai) cid openai_model (clock w)),
     mkWorld
       (Some (update_one (conversation_id c)
                (mkConversationHistory (conversation_id c)
                   (msgs ++ [mkChatMessage (role_of_class (msg_class ai))
                                           (msg_content ai) (clock w)])
                   (match title c with None => Some message | Some old => Some old end)
                   (created_at c)
                   (tick env (tick env (clock w))))
                docs))
       (tick env (tick env (tick env (clock w))))
       (uuid_count w) (llm_calls w) (vector_calls w) (web_calls w)).
Proof.
  intros Hc. unfold persist_reply. cbn [state_messages]. rewrite pop_snoc.
  unfold _convert_from_langchain_message, bind, now, save_conversation,
    get_world, modify, ret. cbn. rewrite Hc. reflexivity.
Qed.

(** What a turn on a resolved conversation does to the world: if it
    raises, the store is as before; if it returns, the store has been
    written once, with the record of the turn. *)
Lemma turn_spec env message cid c w docs out w' :
  collection w = Some docs ->
  turn env message cid c w = (out, w') ->
  match out with
  | Raised _ =>
      collection w' = Some docs /\ clock w' = tick env (clock w) /\
      uuid_count w' = uuid_count w
  | Returned r =>
      exists ai,
        collection w' =
          Some (update_one (conversation_id c) (turn_record env c message (clock w) ai) docs) /\
        r = mkChatResult (msg_content ai) cid openai_model (tick env (clock w)) /\
        clock w' = tick env (tick env (tick env (tick env (clock w)))) /\
        uuid_count w' = uuid_count w
  end.
Proof.
  intros Hc.
  destruct (turn_run env message cid c w) as [context [w2 [_ [Hs [_ ->]]]]].
  destruct Hs as [Hc2 [Hk2 Hu2]]. cbn in Hc2, Hk2, Hu2.
  unfold bind.
  destruct (graph_ainvoke env (graph_input c message (clock w) cid) w2)
    as [[result|e] w3] eqn:Hg;
    apply graph_ainvoke_frame in Hg as [[Hc3 [Hk3 Hu3]] Hres].
  - destruct Hres as [reply Hres]. destruct result as [ms rcid].
    cbn [state_messages] in Hres. subst ms.
    rewrite (@persist_reply_run env message cid c _ _ reply rcid w3 docs)
      by congruence.
    intros [= <- <-]. exists reply. cbn [collection clock uuid_count].
    unfold turn_record. rewrite <- app_assoc. cbn [app].
    rewrite Hk3, Hk2. repeat split; congruence.
  - intros [= <- <-]. repeat split; congruence.
Qed.

Lemma stored_some w cid c :
  stored w cid = Some c -> exists docs, collection w = Some docs /\ find_one cid docs = Some c.
Proof. unfold stored. destruct (collection w); [eauto | discriminate]. Qed.

Lemma resolved_or_not (requested_id : option string) docs :
  (exists cid c, requested_id = Some cid /\ cid <> "" /\ find_one cid docs = Some c) \/
  unresolved requested_id docs.
Proof.
  destruct requested_id as [cid|]; [|right; left; reflexivity].
  destruct (String.eqb cid "") eqn:E.
  - right; left. exact E.
  - apply String.eqb_neq in E.
    destruct (find_one cid docs) as [c|] eqn:Hf.
    + left. eauto.
    + right; right. eauto.
Qed.

(** What a turn on a stored conversation leaves in the store. *)
Lemma chat_stored env message cid w c out w' :
  initialized env = true -> cid <> "" -> stored w cid = Some c ->
  chat env message (Some cid) w = (out, w') ->
  match out with
  | Raised _ => collection w' = collection w /\ clock w' = tick env (clock w)
  | Returned r =>
      exists ai,
        stored w' cid = Some (turn_record env c message (clock w) ai) /\
        r = mkChatResult (msg_content ai) cid openai_model (tick env (clock w)) /\
        clock w' = tick env (tick env (tick env (tick env (clock w)))) /\
        (forall other, other <> cid -> stored w' other = stored w other)
  end.
Proof.
  intros Hi Hne Hs Hchat.
  destruct (@stored_some w cid c Hs) as [docs [Hc Hf]].
  rewrite (@chat_resolved env message cid w docs c Hi Hne Hc Hf) in Hchat.
  apply (@turn_spec env message cid c w docs out w' Hc) in Hchat.
  pose proof (@find_one_id cid docs c Hf) as Hid.
  destruct out as [r|e].
  - destruct Hchat as [ai [Hc' [Hr [Hk _]]]]. exists ai.
    unfold stored. rewrite Hc', Hc, Hid.
    split; [now apply find_one_update_one|]. split; [exact Hr|]. split; [exact Hk|].
    intros other Ho. now apply find_one_update_one_other.
  - destruct Hchat as [Hc' [Hk _]]. split; congruence.
Qed.

(** ** The title *)



(** ** Instants *)

Lemma Forall_update_one (P : ConversationHistory -> Prop) cid d docs :
  P d -> Forall P docs -> Forall P (update_one cid d docs).
Proof.
  intros Hd. induction 1 as [|x docs Hx Hdocs IH]; simpl.
  - now constructor.
  - destruct (String.eqb (conversation_id x) cid); now constructor.
Qed.

Lemma Forall_delete_one (P : ConversationHistory -> Prop) cid docs :
  Forall P docs -> Forall P (fst (delete_one cid docs)).
Proof.
  induction 1 as [|x docs Hx Hdocs IH]; simpl; [constructor|].
  destruct (String.eqb (conversation_id x) cid); [exact Hdocs|].
  destruct (delete_one cid docs) as [rest n]. simpl in *. now constructor.
Qed.

Section MonotoneClock.

Variable env : Collaborators.
Hypothesis tick_le : forall t, t <= tick env t.

Lemma timely_later w docs t :
  clock w <= t ->
  Forall (fun d => created_at d <= updated_at d /\ updated_at d <= clock w) docs ->
  Forall (fun d => created_at d <= updated_at d /\ updated_at d <= t) docs.
Proof. intros Ht. apply Forall_impl. intros d [H1 H2]. lia. Qed.

Lemma created_world_timely title w docs :
  timely w -> collection w = Some docs ->
  timely (created_world env title w docs).
Proof.
  intros Hw Hc docs' [= <-]. cbn [clock created_world].
  pose proof (tick_le (clock w)) as T1.
  pose proof (tick_le (tick env (clock w))) as T2.
  pose proof (tick_le (tick env (tick env (clock w)))) as T3.
  apply Forall_update_one.
  - cbn. lia.
  - apply (@timely_later w); [lia | now apply Hw].
Qed.

Lemma turn_timely message cid c w docs out w' :
  timely w -> collection w = Some docs ->
  In c docs ->
  turn env message cid c w = (out, w') -> timely w'.
Proof.
  intros Hw Hc Hin Hturn docs' Hc'.
  pose proof (Hw _ Hc) as Hall.
  pose proof (proj1 (Forall_forall _ _) Hall c Hin) as [Hc1 Hc2].
  pose proof (tick_le (clock w)) as T1.
  pose proof (tick_le (tick env (clock w))) as T2.
  pose proof (tick_le (tick env (tick env (clock w)))) as T3.
  pose proof (tick_le (tick env (tick env (tick env (clock w))))) as T4.
  apply (@turn_spec env message cid c w docs out w' Hc) in Hturn.
  destruct out as [r|e].
  - destruct Hturn as [ai [Hcol [_ [Hk _]]]].
    rewrite Hcol in Hc'. injection Hc' as <-. rewrite Hk.
    apply Forall_update_one.
    + cbn. lia.
    + apply (@timely_later w); [lia | exact Hall].
  - destruct Hturn as [Hcol [Hk _]].
    rewrite Hcol in Hc'. injection Hc' as <-. rewrite Hk.
    apply (@timely_later w); [lia | exact Hall].
Qed.

Lemma find_one_In cid docs c : find_one cid docs = Some c -> In c docs.
Proof.
  induction docs as [|d docs IH]; simpl; [discriminate|].
  destruct (String.eqb (conversation_id d) cid); [intros [= <-]; auto | auto].
Qed.

Lemma chat_connected_timely message requested_id w docs out w' :
  timely w -> collection w = Some docs ->
  chat env message requested_id w = (out, w') ->
  timely w' /\ exists docs', collection w' = Some docs'.
Proof.
  intros Hw Hc Hchat.
  destruct (initialized env) eqn:Hi.
  - destruct (resolved_or_not requested_id docs) as [[cid [c [-> [Hne Hf]]]] | Hu].
    + rewrite (@chat_resolved env message cid w docs c Hi Hne Hc Hf) in Hchat.
      split.
      * eapply turn_timely; eauto using find_one_In.
      * apply (@turn_spec env message cid c w docs out w' Hc) in Hchat.
        destruct out; [destruct Hchat as [ai [H _]] | destruct Hchat as [H _]]; eauto.
    + rewrite (@chat_created env message requested_id w docs Hi Hc Hu) in Hchat.
      split.
      * eapply turn_timely; [apply created_world_timely; eassumption | reflexivity | | exact Hchat].
        apply (@find_one_In (uuid4 env (uuid_count w))).
        apply find_one_update_one. reflexivity.
      * eapply turn_spec in Hchat; [|reflexivity].
        destruct out; [destruct Hchat as [ai [H _]] | destruct Hchat as [H _]]; eauto.
  - unfold chat in Hchat. rewrite Hi in Hchat. injection Hchat as <- <-. eauto.
Qed.

Lemma reachable_timely w :
  reachable env w -> timely w /\ exists docs, collection w = Some docs.
Proof.
  induction 1 as [w H0 | w message requested_id out w' _ [IH [docs Hc]] Hchat
                 | w title cid w' _ [IH [docs Hc]] Hcreate
                 | w cid deleted w' _ [IH [docs Hc]] Hdel
                 | w conversation saved w' _ [IH [docs Hc]] Hle Hsave].
  - split; [|eauto]. intros docs Hc. rewrite H0 in Hc. injection Hc as <-. constructor.
  - eapply chat_connected_timely; eassumption.
  - rewrite (@create_conversation_run env title w docs Hc) in Hcreate.
    injection Hcreate as _ <-. split; [now apply created_world_timely | eexists; reflexivity].
  - unfold delete_conversation, bind, get_world in Hdel. rewrite Hc in Hdel.
    pose proof (@Forall_delete_one
                  (fun d => created_at d <= updated_at d /\ updated_at d <= clock w)
                  cid docs (IH _ Hc)) as Hall.
    destruct (delete_one cid docs) as [rest n]. cbn in Hdel. injection Hdel as _ <-.
    split; [|eexists; reflexivity].
    intros docs' [= <-]. exact Hall.
  - unfold save_conversation, bind, get_world, now, modify, ret in Hsave.
    rewrite Hc in Hsave. cbn in Hsave. injection Hsave as _ <-.
    split; [|eexists; reflexivity].
    intros docs' [= <-]. cbn [clock set_collection set_clock].
    pose proof (tick_le (clock w)) as T1.
    apply Forall_update_one.
    + cbn. lia.
    + apply (@timely_later w); [lia | now apply IH].
Qed.

End MonotoneClock.

(** ** What the model is sent, and what happens when it fails *)

Lemma graph_input_messages c message t0 cid :
  state_messages (graph_input c message t0 cid) = sent_history c message.
Proof. unfold graph_input, sent_history. cbn [state_messages]. now rewrite convert_app. Qed.







(** ** The continuation preamble *)

(** A continuation turn on a concrete input.  The conversation "c-7"
    holds a lesson, so the turn is a continuation; the context retrieved
    for "More?" is "alpha"; the one call of the model gets the converted
    history ending in the raw text "More?", not in the preamble. *)
Lemma continuation_sends_raw_text :
  lesson_is_generated (messages taught) = true /\
  fst (aget_context env_up "More?" taught_world) = Returned "alpha" /\
  llm_calls (snd (chat env_up "More?" (Some "c-7") taught_world)) =
    [sent_history taught "More?"] /\
  sent_history taught "More?" <> sent_history taught (claimed_preamble "alpha" "More?").
Proof.
  split; [vm_compute; reflexivity|].
  split; [vm_compute; reflexivity|].
  split; [vm_compute; reflexivity|].
  intros H. apply app_inv_head in H. discriminate H.
Qed.

(** * Further properties of the store *)

Lemma set_collection_same w c : collection w = c -> set_collection c w = w.
Proof. destruct w. cbn. now intros ->. Qed.

Lemma save_conversation_run env c w docs :
  collection w = Some docs ->
  save_conversation env c w =
    (Returned true,
     mkWorld (Some (update_one (conversation_id c) (with_updated_at (clock w) c) docs))
             (tick env (clock w)) (uuid_count w) (llm_calls w) (vector_calls w)
             (web_calls w)).
Proof.
  intros Hc. unfold save_conversation, bind, get_world, now, modify, ret.
  rewrite Hc. reflexivity.
Qed.

Lemma get_conversation_run cid w :
  get_conversation cid w = (Returned (stored w cid), w).
Proof.
  unfold get_conversation, stored, bind, get_world.
  destruct (collection w); reflexivity.
Qed.

(** X1: on a connected store a saved conversation is read back under its
    identifier with the fields it was saved with, except [updated_at],
    which is the instant of the save; what is stored under any other
    identifier is not affected, and the save answers [True]. *)
Theorem save_then_get_conversation :
  forall env c w docs,
    collection w = Some docs ->
    exists w',
      save_conversation env c w = (Returned true, w') /\
      get_conversation (conversation_id c) w' =
        (Returned (Some (mkConversationHistory (conversation_id c) (messages c) (title c)
                           (created_at c) (clock w))), w') /\
      (forall other, other <> conversation_id c ->
         get_conversation other w' = (Returned (stored w other), w')).
Proof.
  intros env c w docs Hc. eexists. split; [apply (@save_conversation_run env c w docs Hc)|].
  split.
  - rewrite get_conversation_run. unfold stored. cbn [collection].
    now rewrite find_one_update_one.
  - intros other Ho. rewrite get_conversation_run. f_equal. f_equal.
    unfold stored. cbn [collection]. rewrite Hc.
    now apply find_one_update_one_other.
Qed.

Lemma save_then_get_conversation_witness :
  exists w',
    save_conversation env_up untitled taught_world = (Returned true, w') /\
    get_conversation "c-8" w' =
      (Returned (Some (mkConversationHistory "c-8" [] None 30 100)), w') /\
    (forall other, other <> "c-8" ->
       get_conversation other w' = (Returned (stored taught_world other), w')).
Proof.
  exact (@save_then_get_conversation env_up untitled taught_world [taught; untitled]
           eq_refl).
Defined.

Lemma find_one_none_iff cid docs : find_one cid docs = None <-> ~ In cid (ids docs).
Proof.
  induction docs as [|d docs IH]; simpl; [tauto|].
  destruct (String.eqb (conversation_id d) cid) eqn:E.
  - apply String.eqb_eq in E. split; [discriminate | intros H; exfalso; auto].
  - apply String.eqb_neq in E. rewrite IH. tauto.
Qed.

Lemma delete_one_absent cid docs :
  find_one cid docs = None -> delete_one cid docs = (docs, O).
Proof.
  induction docs as [|d docs IH]; simpl; [reflexivity|].
  destruct (String.eqb (conversation_id d) cid); [discriminate|].
  intros H. now rewrite (IH H).
Qed.

Lemma delete_one_present cid docs c :
  find_one cid docs = Some c ->
  snd (delete_one cid docs) = 1%nat /\
  S (List.length (fst (delete_one cid docs))) = List.length docs.
Proof.
  induction docs as [|d docs IH]; simpl; [discriminate|].
  destruct (String.eqb (conversation_id d) cid); [intros _; split; reflexivity|].
  intros H. destruct (IH H) as [H1 H2].
  destruct (delete_one cid docs) as [rest n]. simpl in *. now rewrite H2.
Qed.

Lemma find_one_delete_one_other cid other docs :
  other <> cid ->
  find_one other (fst (delete_one cid docs)) = find_one other docs.
Proof.
  intros Hne. induction docs as [|d docs IH]; simpl; [reflexivity|].
  destruct (String.eqb (conversation_id d) cid) eqn:E.
  - apply String.eqb_eq in E. simpl.
    assert (String.eqb (conversation_id d) other = false) as ->; [|reflexivity].
    apply String.eqb_neq. congruence.
  - destruct (delete_one cid docs) as [rest n]. simpl in *. now rewrite IH.
Qed.



Lemma find_one_delete_one_same cid docs :
  NoDup (ids docs) -> find_one cid (fst (delete_one cid docs)) = None.
Proof.
  induction docs as [|d docs IH]; simpl; [reflexivity|].
  intros H. inversion H as [|x l Hnin Hnd]; subst.
  destruct (String.eqb (conversation_id d) cid) eqn:E.
  - apply String.eqb_eq in E. simpl. apply find_one_none_iff. congruence.
  - specialize (IH Hnd). destruct (delete_one cid docs) as [rest n]. simpl in *.
    now rewrite E.
Qed.

(** X2: on a connected store, deleting an identifier that is not stored
    answers [False] and leaves the world as it was; deleting a stored one
    answers [True], removes one document, and leaves what is stored under
    every other identifier; if no two documents share an identifier, the
    deleted identifier is no longer found. *)
Theorem delete_conversation_effect :
  forall cid w docs,
    collection w = Some docs ->
    (find_one cid docs = None -> delete_conversation cid w = (Returned false, w)) /\
    (forall c, find_one cid docs = Some c ->
       exists docs',
         delete_conversation cid w = (Returned true, set_collection (Some docs') w) /\
         S (List.length docs') = List.length docs /\
         (forall other, other <> cid -> find_one other docs' = find_one other docs) /\
         (NoDup (ids docs) -> find_one cid docs' = None)).
Proof.
  intros cid w docs Hc. split.
  - intros Hf. unfold delete_conversation, bind, get_world. rewrite Hc.
    rewrite (delete_one_absent _ _ Hf). unfold modify, ret. cbn.
    now rewrite set_collection_same.
  - intros c Hf. exists (fst (delete_one cid docs)).
    destruct (delete_one_present _ _ Hf) as [H1 H2].
    split; [|split; [exact H2|split]].
    + unfold delete_conversation, bind, get_world. rewrite Hc.
      destruct (delete_one cid docs) as [rest n]. simpl in H1. subst n. reflexivity.
    + intros other Ho. now apply find_one_delete_one_other.
    + apply find_one_delete_one_same.
Qed.

Lemma delete_conversation_effect_witness :
  delete_conversation "c-9" taught_world = (Returned false, taught_world) /\
  exists docs',
    delete_conversation "c-7" taught_world =
      (Returned true, set_collection (Some docs') taught_world) /\
    S (List.length docs') = 2%nat /\
    (forall other, other <> "c-7" ->
       find_one other docs' = find_one other [taught; untitled]) /\
    (NoDup (ids [taught; untitled]) -> find_one "c-7" docs' = None).
Proof.
  split.
  - exact (proj1 (@delete_conversation_effect "c-9" taught_world [taught; untitled]
                    eq_refl) eq_refl).
  - exact (proj2 (@delete_conversation_effect "c-7" taught_world [taught; untitled]
                    eq_refl) taught eq_refl).
Defined.

(** * Further properties of retrieval *)

Lemma filter_nil_existsb {A} (f : A -> bool) (l : list A) :
  filter f l = [] <-> existsb f l = false.
Proof.
  induction l as [|x l IH]; simpl; [tauto|].
  destruct (f x); simpl; [split; discriminate | exact IH].
Qed.

Lemma get_context_closed env message w :
  get_context env message w =
    (Returned (retrieved 0.7
                 (similarity_search_with_score env (List.length (vector_calls w)) message 5)),
     log_vector message w).
Proof.
  destruct (similarity_search_with_score env (List.length (vector_calls w)) message 5)
    as [e|found] eqn:Hs.
  - rewrite get_context_no_passage by now rewrite Hs. reflexivity.
  - destruct (filter (passes 0.7) found) eqn:Hf.
    + rewrite get_context_no_passage by now rewrite Hs.
      cbn [retrieved]. now rewrite Hf.
    + unfold get_context, bind, try_except, vector_store. rewrite Hs. unfold ret at 1.
      cbn [retrieved]. rewrite <- docs_above_texts.
      destruct (docs_above 0.7 found) eqn:D; [|reflexivity].
      apply docs_above_nil in D. congruence.
Qed.

Lemma aget_context_closed env message w :
  aget_context env message w =
    (Returned (retrieved 0.9
                 (similarity_search_with_score env (List.length (vector_calls w)) message 5)),
     if any_above 0.9
          (similarity_search_with_score env (List.length (vector_calls w)) message 5)
     then log_vector message w
     else log_web message (log_vector message w)).
Proof.
  destruct (similarity_search_with_score env (List.length (vector_calls w)) message 5)
    as [e|found] eqn:Hs.
  - rewrite aget_context_no_passage by now rewrite Hs. reflexivity.
  - cbn [any_above retrieved].
    destruct (filter (passes 0.9) found) eqn:Hf.
    + rewrite aget_context_no_passage by now rewrite Hs.
      apply filter_nil_existsb in Hf. now rewrite Hf.
    + assert (He : existsb (passes 0.9) found = true).
      { destruct (existsb (passes 0.9) found) eqn:E; [reflexivity|].
        apply filter_nil_existsb in E. congruence. }
      rewrite He.
      unfold aget_context, bind, try_except, vector_store. rewrite Hs. unfold ret at 1.
      rewrite <- Hf, <- docs_above_texts.
      destruct (docs_above 0.9 found) eqn:D; [|reflexivity].
      apply docs_above_nil in D. congruence.
Qed.

(** X3: neither retriever ever raises, whatever the index does.  Each
    queries the index once, for five passages, with the message; the
    context is the texts of the passages scoring above its threshold
    (0.7 for [get_context], 0.9 for [aget_context]) in the order of the
    index and joined by one space, and it is empty when there is none or
    when the index raises.  [get_context] never calls web search, and
    [aget_context] calls it, once and with the message, exactly when no
    passage is above 0.9 or the index raised; neither touches the store,
    the clock or the model. *)
Theorem retrieval_closed_form :
  forall env message w,
    let answer :=
      similarity_search_with_score env (List.length (vector_calls w)) message 5 in
    (exists w',
       get_context env message w = (Returned (retrieved 0.7 answer), w') /\
       vector_calls w' = (vector_calls w ++ [message])%list /\
       web_calls w' = web_calls w /\
       same_store w w' /\ llm_calls w' = llm_calls w) /\
    (exists w',
       aget_context env message w = (Returned (retrieved 0.9 answer), w') /\
       vector_calls w' = (vector_calls w ++ [message])%list /\
       web_calls w' =
         (if any_above 0.9 answer then web_calls w else web_calls w ++ [message])%list /\
       same_store w w' /\ llm_calls w' = llm_calls w) /\
    (forall e, answer = inl e -> retrieved 0.7 answer = "" /\ retrieved 0.9 answer = "") /\
    (any_above 0.9 answer = false -> retrieved 0.9 answer = "").
Proof.
  intros env message w answer. split; [|split; [|split]].
  - eexists. split; [apply get_context_closed|]. repeat split.
  - eexists. split; [apply aget_context_closed|]. fold answer.
    destruct (any_above 0.9 answer); repeat split.
  - intros e ->. split; reflexivity.
  - destruct answer as [e|found]; [reflexivity|]. cbn [any_above retrieved].
    intros H. apply filter_nil_existsb in H. now rewrite H.
Qed.

(** * Further properties of the turn *)

Lemma after_retrieval_spec env message w :
  same_store (set_clock (tick env (clock w)) w) (after_retrieval env message w) /\
  llm_calls (after_retrieval env message w) = llm_calls w /\
  vector_calls (after_retrieval env message w) = (vector_calls w ++ [message])%list.
Proof.
  unfold after_retrieval. rewrite aget_context_closed. cbn [snd].
  destruct (any_above 0.9 _); repeat split.
Qed.

Lemma turn_unfold env message cid c w :
  turn env message cid c w =
    bind (graph_ainvoke env (graph_input c message (clock w) cid))
         (persist_reply env message cid c
            (messages c ++ [mkChatMessage "user" message (clock w)]))
         (after_retrieval env message w).
Proof.
  destruct (turn_run env message cid c w) as [context [w2 [Ha [_ [_ ->]]]]].
  unfold after_retrieval. now rewrite Ha.
Qed.

(** The two runs of a turn on a stored conversation, with the worlds
    spelled out. *)
Lemma turn_at env message cid c w docs :
  collection w = Some docs -> find_one cid docs = Some c ->
  turn env message cid c w =
    if lesson_is_generated (messages c)
    then
      match llm_invoke env (List.length (llm_calls w)) (sent_history c message) with
      | inl e => (Raised e, log_llm (sent_history c message) (after_retrieval env message w))
      | inr reply =>
          persist_reply env message cid c
            (messages c ++ [mkChatMessage "user" message (clock w)])
            (mkConversationState (sent_history c message ++ [reply]) cid)
            (log_llm (sent_history c message) (after_retrieval env message w))
      end
    else
      persist_reply env message cid c
        (messages c ++ [mkChatMessage "user" message (clock w)])
        (mkConversationState
           (sent_history c message ++
            [match llm_invoke env (List.length (llm_calls w))
                     (sent_history c (lesson_prompt (lesson_context env message w) message))
             with
             | inl _ => placeholder
             | inr reply => reply
             end]) cid)
        (log_llm (sent_history c (lesson_prompt (lesson_context env message w) message))
                 (log_vector message (after_retrieval env message w))).
Proof.
  intros Hc Hf. rewrite turn_unfold.
  destruct (after_retrieval_spec env message w) as [[Hc2 _] [Hl2 Hv2]].
  cbn [collection set_clock] in Hc2.
  unfold bind at 1.
  rewrite (@graph_ainvoke_run env (graph_input c message (clock w) cid)
             (after_retrieval env message w) docs c)
    by (cbn; congruence).
  destruct (lesson_is_generated (messages c)).
  - unfold bind at 1. rewrite chat_node_run, graph_input_messages, Hl2.
    destruct (llm_invoke _ _ _); [reflexivity|].
    unfold finish_graph, ret, add_messages. rewrite graph_input_messages. reflexivity.
  - unfold bind at 1. rewrite graph_input_messages.
    unfold build_topic_node, bind at 1, try_except.
    unfold sent_history at 1. rewrite pop_snoc. cbn [msg_content msg_class].
    rewrite (bind_returned _ _ _ (get_context_closed env message _)).
    rewrite Hv2, length_app. cbn [List.length]. rewrite Nat.add_1_r.
    fold (lesson_context env message w).
    unfold bind at 1, llm. cbn [llm_calls log_vector]. rewrite Hl2.
    fold (sent_history c (lesson_prompt (lesson_context env message w) message)).
    destruct (llm_invoke _ _ _);
      unfold bind, ret, finish_graph, add_messages, placeholder;
      rewrite graph_input_messages; reflexivity.
Qed.

Lemma lesson_is_generated_app xs ys :
  lesson_is_generated (xs ++ ys) = lesson_is_generated xs || lesson_is_generated ys.
Proof.
  induction xs as [|x xs IH]; cbn [lesson_is_generated app]; [reflexivity|].
  destruct (String.eqb (role x) "assistant" && str_in "<lesson>" (content x));
    [reflexivity | exact IH].
Qed.

Lemma persist_reply_stored env message cid c msgs pre ai cid' w docs :
  collection w = Some docs -> find_one cid docs = Some c ->
  exists w',
    persist_reply env message cid c msgs (mkConversationState (pre ++ [ai]) cid') w =
      (Returned (mkChatResult (msg_content ai) cid openai_model (clock w)), w') /\
    stored w' cid =
      Some (mkConversationHistory (conversation_id c)
              (msgs ++ [mkChatMessage (role_of_class (msg_class ai)) (msg_content ai)
                                      (clock w)])
              (match title c with None => Some message | Some old => Some old end)
              (created_at c) (tick env (tick env (clock w)))) /\
    (forall other, other <> cid -> stored w' other = find_one other docs) /\
    llm_calls w' = llm_calls w /\ vector_calls w' = vector_calls w /\
    web_calls w' = web_calls w /\ uuid_count w' = uuid_count w.
Proof.
  intros Hc Hf. pose proof (find_one_id _ _ Hf) as Hid.
  rewrite (@persist_reply_run env message cid c msgs pre ai cid' w docs Hc).
  eexists. split; [reflexivity|]. unfold stored. cbn [collection llm_calls vector_calls
    web_calls uuid_count]. rewrite Hid.
  split; [now apply find_one_update_one|]. split; [|repeat split].
  intros other Ho. now apply find_one_update_one_other.
Qed.


(** What a turn on a resolved conversation does to the logs of calls, and
    when it raises. *)
Lemma turn_calls env message cid c w docs out w' :
  collection w = Some docs -> find_one cid docs = Some c ->
  turn env message cid c w = (out, w') ->
  exists sent,
    llm_calls w' = (llm_calls w ++ [sent])%list /\
    vector_calls w' =
      (vector_calls w ++
       if lesson_is_generated (messages c) then [message] else [message; message])%list /\
    match out with
    | Returned _ => True
    | Raised e =>
        lesson_is_generated (messages c) = true /\
        llm_invoke env (List.length (llm_calls w)) sent = inl e /\
        collection w' = collection w
    end.
Proof.
  intros Hc Hf. rewrite (@turn_at env message cid c w docs Hc Hf).
  destruct (after_retrieval_spec env message w) as [[Hc2 _] [Hl2 Hv2]].
  cbn [collection set_clock] in Hc2.
  destruct (lesson_is_generated (messages c)).
  - destruct (llm_invoke env (List.length (llm_calls w)) (sent_history c message))
      as [e|reply] eqn:Hllm.
    + intros [= <- <-]. exists (sent_history c message). cbn. rewrite Hl2, Hv2.
      repeat split; congruence.
    + destruct (@persist_reply_stored env message cid c
                  (messages c ++ [mkChatMessage "user" message (clock w)])
                  (sent_history c message) reply cid
                  (log_llm (sent_history c message) (after_retrieval env message w)) docs)
        as [w1 [Hrun [_ [_ [Hl [Hv _]]]]]]; [cbn; congruence | exact Hf |].
      rewrite Hrun. intros [= <- <-]. exists (sent_history c message).
      rewrite Hl, Hv. cbn. rewrite Hl2, Hv2. repeat split.
  - match goal with
    | |- persist_reply _ _ _ _ _ (mkConversationState (_ ++ [?r]) _) ?w0 = _ -> _ =>
        destruct (@persist_reply_stored env message cid c
                    (messages c ++ [mkChatMessage "user" message (clock w)])
                    (sent_history c message) r cid w0 docs)
          as [w1 [Hrun [_ [_ [Hl [Hv _]]]]]]; [cbn; congruence | exact Hf |]
    end.
    rewrite Hrun. intros [= <- <-]. eexists.
    rewrite Hl, Hv. cbn. rewrite Hl2, Hv2, <- app_assoc. repeat split.
Qed.

(** On a disconnected store a turn cannot resolve or create its
    conversation. *)
Lemma chat_disconnected env message requested_id w :
  initialized env = true -> collection w = None ->
  exists w',
    chat env message requested_id w = (Raised AttributeError, w') /\
    collection w' = None /\ llm_calls w' = llm_calls w /\
    vector_calls w' = vector_calls w.
Proof.
  intros Hi Hc. destruct w as [col clk n lc vc wc]. cbn in Hc. subst col.
  unfold chat. rewrite Hi. cbn [negb].
  destruct (absent requested_id); eexists; (split; [reflexivity|]); repeat split.
Qed.


(** X7: on a connected store an initialized service calls the model
    exactly once in every turn, whether the turn returns or raises, and
    queries the index with the user text once or twice. *)
Theorem one_model_call_per_turn :
  forall env message requested_id w docs out w',
    initialized env = true -> collection w = Some docs ->
    chat env message requested_id w = (out, w') ->
    exists sent,
      llm_calls w' = (llm_calls w ++ [sent])%list /\
      (vector_calls w' = (vector_calls w ++ [message])%list \/
       vector_calls w' = (vector_calls w ++ [message; message])%list).
Proof.
  intros env message requested_id w docs out w' Hi Hc Hchat.
  destruct (resolved_or_not requested_id docs) as [[cid [c [-> [Hne Hf]]]] | Hu].
  - rewrite (@chat_resolved env message cid w docs c Hi Hne Hc Hf) in Hchat.
    destruct (@turn_calls env message cid c w docs _ _ Hc Hf Hchat) as [sent [Hl [Hv _]]].
    exists sent. split; [exact Hl|].
    destruct (lesson_is_generated (messages c)); auto.
  - rewrite (@chat_created env message requested_id w docs Hi Hc Hu) in Hchat.
    eapply turn_calls in Hchat; [|reflexivity|apply find_one_update_one; reflexivity].
    destruct Hchat as [sent [Hl [Hv _]]]. exists sent. split; [exact Hl|].
    right. exact Hv.
Qed.

Lemma one_model_call_per_turn_witness :
  exists sent,
    llm_calls (snd unknown_id_turn) = (llm_calls taught_world ++ [sent])%list /\
    (vector_calls (snd unknown_id_turn) =
       (vector_calls taught_world ++ ["Explain TCP handshakes"])%list \/
     vector_calls (snd unknown_id_turn) =
       (vector_calls taught_world ++
        ["Explain TCP handshakes"; "Explain TCP handshakes"])%list).
Proof.
  assert (Hrun : chat env_up "Explain TCP handshakes" (Some "c-9") taught_world =
                 (fst unknown_id_turn, snd unknown_id_turn))
    by (vm_compute; reflexivity).
  exact (@one_model_call_per_turn env_up "Explain TCP handshakes" (Some "c-9")
           taught_world [taught; untitled] _ _ eq_refl eq_refl Hrun).
Defined.

Lemma reply_message_is_lesson cl text t :
  lesson_is_generated [mkChatMessage (role_of_class cl) text t] =
  reply_is_lesson (mkBaseMessage cl text).
Proof.
  unfold reply_is_lesson. cbn [lesson_is_generated role content msg_class msg_content].
  destruct cl; cbn [role_of_class]; [reflexivity| |reflexivity].
  rewrite String.eqb_refl. cbn [andb]. now destruct (str_in "<lesson>" text).
Qed.

Lemma lesson_after_turn env c message t0 reply :
  lesson_is_generated (messages (turn_record env c message t0 reply)) =
  lesson_is_generated (messages c) || reply_is_lesson reply.
Proof.
  unfold turn_record. cbn [messages].
  change [mkChatMessage "user" message t0;
          mkChatMessage (role_of_class (msg_class reply)) (msg_content reply) (tick env t0)]
    with ([mkChatMessage "user" message t0] ++
          [mkChatMessage (role_of_class (msg_class reply)) (msg_content reply)
                         (tick env t0)])%list.
  rewrite !lesson_is_generated_app, reply_message_is_lesson.
  destruct reply as [cl text]. cbn [msg_class msg_content].
  now destruct (lesson_is_generated (messages c)).
Qed.

(** X8: after a turn that returns, a conversation holds a lesson exactly
    if it held one before or if the reply is an AI message whose content
    contains "<lesson>".  So a conversation that holds a lesson keeps it,
    and every later turn on it takes the continuation branch; and the
    placeholder of a failed first lesson, stored under the role "user",
    never counts, so that the next turn asks for the lesson again. *)
Theorem lesson_decides_next_turn :
  forall env message cid w c r w',
    initialized env = true -> cid <> "" -> stored w cid = Some c ->
    chat env message (Some cid) w = (Returned r, w') ->
    exists c' reply,
      stored w' cid = Some c' /\
      result_message r = msg_content reply /\
      lesson_is_generated (messages c') =
        lesson_is_generated (messages c) || reply_is_lesson reply /\
      (lesson_is_generated (messages c) = true ->
         is_touch_lesson (mkConversationState [] cid) w' = (Returned "generated", w')) /\
      ((exists sent, llm_invoke env (List.length (llm_calls w)) sent = inr reply) \/
       (reply = placeholder /\
        (exists sent e, llm_invoke env (List.length (llm_calls w)) sent = inl e) /\
        is_touch_lesson (mkConversationState [] cid) w' =
          (Returned "not_generated", w'))).
Proof.
  intros env message cid w c r w' Hi Hne Hs Hchat.
  destruct (@stored_some w cid c Hs) as [docs [Hc Hf]].
  pose proof (find_one_id _ _ Hf) as Hid.
  rewrite (@chat_resolved env message cid w docs c Hi Hne Hc Hf) in Hchat.
  rewrite (@turn_at env message cid c w docs Hc Hf) in Hchat.
  destruct (after_retrieval_spec env message w) as [[Hc2 [Hk2 _]] _].
  cbn [collection clock set_clock] in Hc2, Hk2.
  assert (Touch : forall w1 c1,
            stored w1 cid = Some c1 ->
            is_touch_lesson (mkConversationState [] cid) w1 =
              (Returned (if lesson_is_generated (messages c1)
                         then "generated" else "not_generated"), w1)).
  { intros w1 c1 H1. rewrite is_touch_lesson_run. cbn [state_conversation_id].
    unfold stored in H1. destruct (collection w1); [|discriminate]. now rewrite H1. }
  assert (Shape : forall reply w0,
            collection w0 = Some docs -> clock w0 = tick env (clock w) ->
            persist_reply env message cid c
              (messages c ++ [mkChatMessage "user" message (clock w)])
              (mkConversationState (sent_history c message ++ [reply]) cid) w0 =
              (Returned r, w') ->
            stored w' cid = Some (turn_record env c message (clock w) reply) /\
            result_message r = msg_content reply).
  { intros reply w0 H0 Hk0 Hrun.
    destruct (@persist_reply_stored env message cid c
                (messages c ++ [mkChatMessage "user" message (clock w)])
                (sent_history c message) reply cid w0 docs H0 Hf)
      as [w1 [Hrun1 [Hst _]]].
    rewrite Hrun1 in Hrun. injection Hrun as <- <-.
    split; [|reflexivity]. rewrite Hst. unfold turn_record.
    rewrite <- app_assoc, Hk0. reflexivity. }
  destruct (lesson_is_generated (messages c)) eqn:Hgen.
  - destruct (llm_invoke env (List.length (llm_calls w)) (sent_history c message))
      as [e|reply] eqn:Hllm; [discriminate|].
    apply Shape in Hchat as [Hst Hr]; [|cbn; congruence|cbn; congruence].
    eexists. exists reply. split; [exact Hst|]. split; [exact Hr|].
    split; [rewrite lesson_after_turn, Hgen; reflexivity|].
    split.
    + intros _. rewrite (Touch _ _ Hst), lesson_after_turn, Hgen. reflexivity.
    + left. eauto.
  - apply Shape in Hchat as [Hst Hr]; [|cbn; congruence|cbn; congruence].
    eexists. eexists. split; [exact Hst|]. split; [exact Hr|].
    split; [rewrite lesson_after_turn, Hgen; reflexivity|].
    split; [discriminate|].
    destruct (llm_invoke env (List.length (llm_calls w))
                (sent_history c (lesson_prompt (lesson_context env message w) message)))
      as [e|reply] eqn:Hllm.
    + right. split; [reflexivity|]. split; [eauto|].
      rewrite (Touch _ _ Hst), lesson_after_turn, Hgen. reflexivity.
    + left. eauto.
Qed.

Lemma lesson_decides_next_turn_witness :
  exists c' reply,
    stored continuation_world "c-7" = Some c' /\
    "<h4><topic>TCP</topic></h4><lesson>Three steps</lesson>" = msg_content reply /\
    lesson_is_generated (messages c') =
      lesson_is_generated (messages taught) || reply_is_lesson reply /\
    (lesson_is_generated (messages taught) = true ->
       is_touch_lesson (mkConversationState [] "c-7") continuation_world =
         (Returned "generated", continuation_world)) /\
    ((exists sent, llm_invoke env_up (List.length (llm_calls taught_world)) sent =
                     inr reply) \/
     (reply = placeholder /\
      (exists sent e,
         llm_invoke env_up (List.length (llm_calls taught_world)) sent = inl e) /\
      is_touch_lesson (mkConversationState [] "c-7") continuation_world =
        (Returned "not_generated", continuation_world))).
Proof.
  assert (Hrun : chat env_up "More?" (Some "c-7") taught_world =
                 (Returned (mkChatResult
                              "<h4><topic>TCP</topic></h4><lesson>Three steps</lesson>"
                              "c-7" openai_model 101),
                  continuation_world))
    by (vm_compute; reflexivity).
  assert (Hid : "c-7" <> "") by discriminate.
  exact (@lesson_decides_next_turn env_up "More?" "c-7" taught_world taught _ _
           eq_refl Hid eq_refl Hrun).
Defined.

(** * Further properties of the history and of the conversions *)

Lemma get_conversation_history_run cid w :
  get_conversation_history cid w =
    (Returned (option_map (fun c => map history_entry (messages c)) (stored w cid)), w).
Proof.
  unfold get_conversation_history, bind at 1. rewrite get_conversation_run.
  destruct (stored w cid); reflexivity.
Qed.

(** X9: [get_conversation_history] answers [None] exactly for an
    identifier that is not stored.  After a turn on a stored conversation
    it renders, if the turn returned, the former history followed by the
    user text as typed at the instant the turn began and by the reply
    with the text and the timestamp of the answer of the turn, under one
    of the roles "user", "assistant" and "system"; if the turn raised, it
    renders the former history.  The history of every other conversation
    is as before. *)
Theorem history_after_turn :
  forall env message cid w c out w',
    initialized env = true -> cid <> "" -> stored w cid = Some c ->
    chat env message (Some cid) w = (out, w') ->
    (forall other, fst (get_conversation_history other w') = Returned None <->
                   stored w' other = None) /\
    (forall other, other <> cid ->
       fst (get_conversation_history other w') = fst (get_conversation_history other w)) /\
    match out with
    | Raised _ =>
        get_conversation_history cid w' =
          (Returned (Some (map history_entry (messages c))), w')
    | Returned r =>
        exists reply_role,
          In reply_role ["user"; "assistant"; "system"] /\
          get_conversation_history cid w' =
            (Returned (Some (map history_entry (messages c) ++
                             [mkHistoryEntry "user" message (clock w);
                              mkHistoryEntry reply_role (result_message r)
                                             (result_timestamp r)])%list), w')
    end.
Proof.
  intros env message cid w c out w' Hi Hne Hs Hchat.
  pose proof (@chat_stored env message cid w c out w' Hi Hne Hs Hchat) as H.
  split; [|split].
  - intros other. rewrite get_conversation_history_run. cbn [fst].
    destruct (stored w' other); cbn; split; congruence.
  - intros other Ho. rewrite !get_conversation_history_run. cbn [fst].
    destruct out as [r|e].
    + destruct H as [ai [_ [_ [_ Hother]]]]. now rewrite (Hother other Ho).
    + destruct H as [Hcol _]. unfold stored. now rewrite Hcol.
  - destruct out as [r|e].
    + destruct H as [ai [Hst [-> _]]].
      exists (role_of_class (msg_class ai)). split.
      * destruct (msg_class ai); cbn; auto.
      * rewrite get_conversation_history_run, Hst. cbn [option_map turn_record messages].
        rewrite map_app. reflexivity.
    + destruct H as [Hcol _]. rewrite get_conversation_history_run.
      unfold stored in *. rewrite Hcol, Hs. reflexivity.
Qed.

Lemma history_after_turn_witness :
  (forall other, fst (get_conversation_history other continuation_world) = Returned None <->
                 stored continuation_world other = None) /\
  (forall other, other <> "c-7" ->
     fst (get_conversation_history other continuation_world) =
     fst (get_conversation_history other taught_world)) /\
  exists reply_role,
    In reply_role ["user"; "assistant"; "system"] /\
    get_conversation_history "c-7" continuation_world =
      (Returned (Some (map history_entry (messages taught) ++
                       [mkHistoryEntry "user" "More?" 100;
                        mkHistoryEntry reply_role
                          "<h4><topic>TCP</topic></h4><lesson>Three steps</lesson>" 101])%list),
       continuation_world).
Proof.
  assert (Hrun : chat env_up "More?" (Some "c-7") taught_world =
                 (Returned (mkChatResult
                              "<h4><topic>TCP</topic></h4><lesson>Three steps</lesson>"
                              "c-7" openai_model 101),
                  continuation_world))
    by (vm_compute; reflexivity).
  assert (Hid : "c-7" <> "") by discriminate.
  exact (@history_after_turn env_up "More?" "c-7" taught_world taught _ _
           eq_refl Hid eq_refl Hrun).
Defined.

(** X10: the two conversions are inverse to each other on what they
    both know.  A human or AI message converted to a stored message and
    back is the same message; a stored message of role "user" or
    "assistant" converted to a model-facing message and back has the same
    role and content, and the timestamp of the conversion; and the
    model-facing sequence of a history carries, in order, the roles and
    contents of its messages of these two roles. *)
Theorem conversions_round_trip :
  (forall env message w,
     msg_class message <> OtherMessage ->
     exists stored_message,
       fst (_convert_from_langchain_message env message w) = Returned stored_message /\
       _convert_to_langchain_messages [stored_message] = [message]) /\
  (forall env msg w,
     is_dialogue msg = true ->
     _convert_to_langchain_messages [msg] = [to_langchain msg] /\
     fst (_convert_from_langchain_message env (to_langchain msg) w) =
       Returned (mkChatMessage (role msg) (content msg) (clock w))) /\
  (forall msgs,
     map (fun b => (role_of_class (msg_class b), msg_content b))
         (_convert_to_langchain_messages msgs) =
     map role_and_content (filter is_dialogue msgs)).
Proof.
  split; [|split].
  - intros env [cl text] w Hcl. eexists. split; [reflexivity|].
    destruct cl; [reflexivity | reflexivity | now elim Hcl].
  - intros env msg w Hd. unfold is_dialogue in Hd. split.
    + rewrite convert_filter_map. cbn [filter]. unfold is_dialogue. now rewrite Hd.
    + unfold _convert_from_langchain_message, bind, now, ret, to_langchain.
      cbn [fst msg_class msg_content]. f_equal.
      destruct (String.eqb (role msg) "user") eqn:Eu.
      * apply String.eqb_eq in Eu. cbn [role_of_class]. rewrite <- Eu. now destruct msg.
      * cbn [orb] in Hd. apply String.eqb_eq in Hd. cbn [role_of_class].
        rewrite <- Hd. now destruct msg.
  - intros msgs. rewrite convert_filter_map, map_map.
    induction msgs as [|m msgs IH]; [reflexivity|]. cbn [filter].
    destruct (is_dialogue m) eqn:Hd; [|exact IH].
    cbn [map]. rewrite IH. f_equal.
    unfold to_langchain, role_and_content. cbn [msg_class msg_content].
    unfold is_dialogue in Hd.
    destruct (String.eqb (role m) "user") eqn:Eu.
    + apply String.eqb_eq in Eu. now rewrite Eu.
    + cbn [orb] in Hd. apply String.eqb_eq in Hd. now rewrite Hd.
Qed.

Lemma conversions_round_trip_witness :
  exists stored_message,
    fst (_convert_from_langchain_message env_up (mkBaseMessage AIMessage "hello")
           empty_world) = Returned stored_message /\
    _convert_to_langchain_messages [stored_message] = [mkBaseMessage AIMessage "hello"].
Proof.
  assert (Hcl : msg_class (mkBaseMessage AIMessage "hello") <> OtherMessage)
    by discriminate.
  exact (proj1 conversions_round_trip env_up (mkBaseMessage AIMessage "hello")
           empty_world Hcl).
Defined.

(** * Further invariants of the store *)

Lemma ids_update_one cid d docs x :
  conversation_id d = cid ->
  In x (ids (update_one cid d docs)) <-> x = cid \/ In x (ids docs).
Proof.
  intros Hd. induction docs as [|y docs IH]; simpl.
  - rewrite Hd. intuition congruence.
  - destruct (String.eqb (conversation_id y) cid) eqn:E; simpl.
    + apply String.eqb_eq in E. rewrite Hd, E. intuition congruence.
    + rewrite IH. tauto.
Qed.

Lemma NoDup_update_one cid d docs :
  conversation_id d = cid -> NoDup (ids docs) -> NoDup (ids (update_one cid d docs)).
Proof.
  intros Hd. induction docs as [|y docs IH]; simpl; intros H.
  - rewrite Hd. constructor; [tauto | constructor].
  - apply NoDup_cons_iff in H as [Hnin Hnd].
    destruct (String.eqb (conversation_id y) cid) eqn:E; simpl.
    + apply String.eqb_eq in E. rewrite Hd, <- E. now constructor.
    + apply String.eqb_neq in E. constructor; [|auto].
      fold (ids (update_one cid d docs)).
      rewrite ids_update_one by exact Hd. intros [Heq | Hin]; [congruence | tauto].
Qed.

Lemma length_update_one cid d docs :
  (List.length docs <= List.length (update_one cid d docs))%nat.
Proof.
  induction docs as [|y docs IH]; simpl; [lia|].
  destruct (String.eqb (conversation_id y) cid); simpl; lia.
Qed.

Lemma upserts_keep docs docs' :
  upserts docs docs' ->
  (NoDup (ids docs) -> NoDup (ids docs')) /\
  (forall x, In x (ids docs) -> In x (ids docs')) /\
  (List.length docs <= List.length docs')%nat.
Proof.
  induction 1 as [docs | docs d docs' _ [IH1 [IH2 IH3]]].
  - repeat split; auto.
  - split; [|split].
    + intros H. apply IH1. now apply NoDup_update_one.
    + intros x Hx. apply IH2. apply ids_update_one; [reflexivity | tauto].
    + pose proof (length_update_one (conversation_id d) d docs). lia.
Qed.

(** All that a turn does to a connected store is to upsert. *)
Lemma chat_upserts env message requested_id w docs out w' :
  collection w = Some docs ->
  chat env message requested_id w = (out, w') ->
  exists docs', collection w' = Some docs' /\ upserts docs docs'.
Proof.
  intros Hc Hchat.
  assert (Turn : forall cid c w0 docs0,
            collection w0 = Some docs0 ->
            turn env message cid c w0 = (out, w') ->
            exists docs', collection w' = Some docs' /\ upserts docs0 docs').
  { intros cid c w0 docs0 H0 Hturn.
    apply (@turn_spec env message cid c w0 docs0 out w' H0) in Hturn.
    destruct out as [r|e].
    - destruct Hturn as [ai [Hcol _]]. eexists. split; [exact Hcol|].
      apply (@upserts_step docs0 (turn_record env c message (clock w0) ai)).
      apply upserts_refl.
    - destruct Hturn as [Hcol _]. eexists. split; [exact Hcol | apply upserts_refl]. }
  destruct (initialized env) eqn:Hi.
  - destruct (resolved_or_not requested_id docs) as [[cid [c [-> [Hne Hf]]]] | Hu].
    + rewrite (@chat_resolved env message cid w docs c Hi Hne Hc Hf) in Hchat.
      eapply Turn; eassumption.
    + rewrite (@chat_created env message requested_id w docs Hi Hc Hu) in Hchat.
      eapply Turn in Hchat; [|reflexivity].
      destruct Hchat as [docs' [Hcol Hup]]. exists docs'. split; [exact Hcol|].
      apply (@upserts_step docs (created_record env (Some message) w)). exact Hup.
  - unfold chat in Hchat. rewrite Hi in Hchat. injection Hchat as _ <-.
    eexists. split; [exact Hc | apply upserts_refl].
Qed.


Lemma delete_conversation_run_cases cid w docs :
  collection w = Some docs ->
  (find_one cid docs = None -> delete_conversation cid w = (Returned false, w)) /\
  (forall c, find_one cid docs = Some c ->
     exists docs',
       delete_conversation cid w = (Returned true, set_collection (Some docs') w) /\
       (NoDup (ids docs) -> find_one cid docs' = None) /\
       docs' = fst (delete_one cid docs)).
Proof.
  intros Hc. split.
  - intros Hf. unfold delete_conversation, bind, get_world. rewrite Hc.
    rewrite (delete_one_absent _ _ Hf). unfold modify, ret. cbn.
    now rewrite set_collection_same.
  - intros c Hf. exists (fst (delete_one cid docs)).
    destruct (delete_one_present _ _ Hf) as [H1 _].
    split; [|split; [apply find_one_delete_one_same | reflexivity]].
    unfold delete_conversation, bind, get_world. rewrite Hc.
    destruct (delete_one cid docs) as [rest n]. simpl in H1. subst n. reflexivity.
Qed.



(** X12: a turn never removes a conversation from a connected store:
    whatever it is asked and however it ends, the store stays connected,
    every identifier that was stored is still stored, and the store has
    not shrunk. *)
Theorem turn_never_removes :
  forall env message requested_id w docs out w',
    collection w = Some docs ->
    chat env message requested_id w = (out, w') ->
    exists docs',
      collection w' = Some docs' /\
      (List.length docs <= List.length docs')%nat /\
      (forall cid, stored w cid <> None -> stored w' cid <> None).
Proof.
  intros env message requested_id w docs out w' Hc Hchat.
  destruct (@chat_upserts env message requested_id w docs out w' Hc Hchat)
    as [docs' [Hc' Hup]].
  destruct (upserts_keep Hup) as [_ [Hin Hlen]].
  exists docs'. split; [exact Hc'|]. split; [exact Hlen|].
  intros cid. unfold stored. rewrite Hc, Hc', !find_one_none_iff.
  intros H1 H2. apply H1. intros Hx. apply H2, Hin, Hx.
Qed.

Lemma turn_never_removes_witness :
  exists docs',
    collection failed_turn_world = Some docs' /\
    (2 <= List.length docs')%nat /\
    (forall cid, stored taught_world cid <> None -> stored failed_turn_world cid <> None).
Proof.
  assert (Hrun : chat env_down "And QUIC?" (Some "c-7") taught_world =
                 (Raised (CollaboratorError "model unavailable"), failed_turn_world))
    by (vm_compute; reflexivity).
  exact (@turn_never_removes env_down "And QUIC?" (Some "c-7") taught_world
           [taught; untitled] _ _ eq_refl Hrun).
Defined.

(** * Further properties of the listing *)






(** * The disconnected store and the endpoints *)

(** X14: a disconnected store fails softly.  Saving and deleting answer
    [False], reading answers [None], the listing is empty and the history
    is [None], all without any effect.  [create_conversation] still
    answers an identifier, under which nothing is stored; and a turn of
    an initialized service raises an [AttributeError], without having
    called the index or the model. *)
Theorem disconnected_store :
  forall env w,
    collection w = None ->
    (forall c, save_conversation env c w = (Returned false, w)) /\
    (forall cid, get_conversation cid w = (Returned None, w)) /\
    list_conversations w = (Returned [], w) /\
    (forall cid, delete_conversation cid w = (Returned false, w)) /\
    (forall cid, get_conversation_history cid w = (Returned None, w)) /\
    (forall title,
       exists w',
         create_conversation env title w = (Returned (uuid4 env (uuid_count w)), w') /\
         collection w' = None /\
         get_conversation (uuid4 env (uuid_count w)) w' = (Returned None, w')) /\
    (forall message requested_id,
       initialized env = true ->
       exists w',
         chat env message requested_id w = (Raised AttributeError, w') /\
         collection w' = None /\
         llm_calls w' = llm_calls w /\ vector_calls w' = vector_calls w).
Proof.
  intros env w Hc.
  assert (Hst : forall cid, stored w cid = None) by (intros; unfold stored; now rewrite Hc).
  repeat split.
  - intros c. unfold save_conversation, bind, get_world. now rewrite Hc.
  - intros cid. now rewrite get_conversation_run, Hst.
  - unfold list_conversations, bind, get_world. now rewrite Hc.
  - intros cid. unfold delete_conversation, bind, get_world. now rewrite Hc.
  - intros cid. now rewrite get_conversation_history_run, Hst.
  - intros title. destruct w as [col clk n lc vc wc]. cbn in Hc. subst col.
    unfold create_conversation, bind, fresh_uuid, now, save_conversation, get_world, ret.
    cbn. eexists. split; [reflexivity|]. split; reflexivity.
  - intros message requested_id Hi. now apply chat_disconnected.
Qed.

Lemma disconnected_store_witness :
  exists w',
    chat env_up "Explain TCP handshakes" None disconnected_world =
      (Raised AttributeError, w') /\
    collection w' = None /\
    llm_calls w' = llm_calls disconnected_world /\
    vector_calls w' = vector_calls disconnected_world.
Proof.
  exact (proj2 (proj2 (proj2 (proj2 (proj2 (proj2
           (@disconnected_store env_up disconnected_world eq_refl))))))
           "Explain TCP handshakes" None eq_refl).
Defined.

Lemma api_get_conversation_history_run cid w :
  Api.get_conversation_history cid w =
    (match stored w cid with
     | None => Api.HTTPException Api.HTTP_404_NOT_FOUND (Api.Text "Conversation not found")
     | Some c =>
         Api.Answer Api.HTTP_200_OK
           (Api.mkHistoryResponse cid (map history_entry (messages c)) (title c))
     end, w).
Proof.
  unfold Api.get_conversation_history, chatbot_service.get_conversation_history,
    chatbot_service.get_conversation.
  unfold bind at 1. rewrite get_conversation_history_run.
  unfold bind at 1. rewrite get_conversation_run.
  destruct (stored w cid); reflexivity.
Qed.

Lemma api_delete_conversation_run cid w :
  Api.delete_conversation cid w =
    match delete_conversation cid w with
    | (Returned true, w') => (Api.Answer Api.HTTP_204_NO_CONTENT tt, w')
    | (Returned false, w') =>
        (Api.HTTPException Api.HTTP_404_NOT_FOUND (Api.Text "Conversation not found"), w')
    | (Raised e, w') =>
        (Api.HTTPException Api.HTTP_500_INTERNAL_SERVER_ERROR
           (Api.Failure "Failed to delete conversation: " e), w')
    end.
Proof.
  unfold Api.delete_conversation, chatbot_service.delete_conversation.
  destruct (delete_conversation cid w) as [[[|]|e] w']; reflexivity.
Qed.

(** X15: the endpoints for reading and deleting answer by what is
    stored, and never with 500.  The history endpoint answers 404 for an
    identifier that is not stored and otherwise 200 with the identifier,
    the rendered messages and the title, in both cases without effect.
    The deletion endpoint answers 404, without effect, for an identifier
    that is not stored, and otherwise 204, leaving the other
    conversations; in a store without two conversations under one
    identifier the history endpoint and a second deletion then answer
    404. *)
Theorem read_and_delete_endpoints :
  forall cid w,
    Api.get_conversation_history cid w =
      (match stored w cid with
       | None => Api.HTTPException 404 (Api.Text "Conversation not found")
       | Some c =>
           Api.Answer 200
             (Api.mkHistoryResponse cid (map history_entry (messages c)) (title c))
       end, w) /\
    (stored w cid = None ->
     Api.delete_conversation cid w =
       (Api.HTTPException 404 (Api.Text "Conversation not found"), w)) /\
    (forall c docs,
       collection w = Some docs -> find_one cid docs = Some c ->
       exists w',
         Api.delete_conversation cid w = (Api.Answer 204 tt, w') /\
         (forall other, other <> cid -> stored w' other = stored w other) /\
         (NoDup (ids docs) ->
          Api.get_conversation_history cid w' =
            (Api.HTTPException 404 (Api.Text "Conversation not found"), w') /\
          Api.delete_conversation cid w' =
            (Api.HTTPException 404 (Api.Text "Conversation not found"), w'))).
Proof.
  intros cid w. split; [apply api_get_conversation_history_run|].
  assert (Absent : forall w0, stored w0 cid = None ->
            Api.delete_conversation cid w0 =
              (Api.HTTPException 404 (Api.Text "Conversation not found"), w0)).
  { intros w0 Hs. rewrite api_delete_conversation_run.
    destruct (collection w0) as [docs|] eqn:Hc.
    - unfold stored in Hs. rewrite Hc in Hs.
      now rewrite (proj1 (@delete_conversation_run_cases cid w0 docs Hc) Hs).
    - unfold delete_conversation, bind, get_world. now rewrite Hc. }
  split; [apply Absent|].
  intros c docs Hc Hf.
  destruct (proj2 (@delete_conversation_run_cases cid w docs Hc) c Hf)
    as [docs' [Hrun [Hgone ->]]].
  eexists. split; [rewrite api_delete_conversation_run, Hrun; reflexivity|].
  split.
  - intros other Ho. unfold stored. cbn [collection]. rewrite Hc.
    now apply find_one_delete_one_other.
  - intros Hn. specialize (Hgone Hn).
    assert (Hs : stored (set_collection (Some (fst (delete_one cid docs))) w) cid = None)
      by exact Hgone.
    split; [rewrite api_get_conversation_history_run, Hs; reflexivity | now apply Absent].
Qed.

Lemma read_and_delete_endpoints_witness :
  Api.delete_conversation "c-9" taught_world =
    (Api.HTTPException 404 (Api.Text "Conversation not found"), taught_world) /\
  exists w',
    Api.delete_conversation "c-7" taught_world = (Api.Answer 204 tt, w') /\
    (forall other, other <> "c-7" -> stored w' other = stored taught_world other) /\
    (NoDup (ids [taught; untitled]) ->
     Api.get_conversation_history "c-7" w' =
       (Api.HTTPException 404 (Api.Text "Conversation not found"), w') /\
     Api.delete_conversation "c-7" w' =
       (Api.HTTPException 404 (Api.Text "Conversation not found"), w')).
Proof.
  split.
  - exact (proj1 (proj2 (read_and_delete_endpoints "c-9" taught_world)) eq_refl).
  - exact (proj2 (proj2 (read_and_delete_endpoints "c-7" taught_world))
             taught [taught; untitled] eq_refl eq_refl).
Defined.

(** X16: the creation endpoint always answers 201 with the identifier
    drawn from [uuid4], whether or not the store is connected: the
    answer of the save is not looked at.  On a connected store the
    history endpoint then answers 200 for that identifier, with no
    message and the given title; on a disconnected store it answers
    404. *)
Theorem creation_endpoint :
  forall env title w,
    exists w',
      Api.create_conversation env title w =
        (Api.Answer 201 (uuid4 env (uuid_count w)), w') /\
      Api.get_conversation_history (uuid4 env (uuid_count w)) w' =
        (match collection w with
         | Some _ =>
             Api.Answer 200 (Api.mkHistoryResponse (uuid4 env (uuid_count w)) [] title)
         | None => Api.HTTPException 404 (Api.Text "Conversation not found")
         end, w').
Proof.
  intros env title w. unfold Api.create_conversation, chatbot_service.create_conversation.
  destruct (collection w) as [docs|] eqn:Hc.
  - rewrite (@create_conversation_run env title w docs Hc).
    eexists. split; [reflexivity|].
    rewrite api_get_conversation_history_run. unfold stored. cbn [collection created_world].
    rewrite find_one_update_one by reflexivity. reflexivity.
  - destruct w as [col clk n lc vc wc]. cbn in Hc. subst col.
    unfold create_conversation, bind, fresh_uuid, now, save_conversation, get_world, ret.
    cbn. eexists. split; [reflexivity|].
    rewrite api_get_conversation_history_run. reflexivity.
Qed.

(** * What a continuation turn sends to the model *)

Lemma string_length_app (a b : string) :
  String.length (a ++ b) = (String.length a + String.length b)%nat.
Proof. induction a as [|x a IH]; simpl; [reflexivity | now rewrite IH]. Qed.

Lemma sent_history_inj c x y : sent_history c x = sent_history c y -> x = y.
Proof.
  unfold sent_history. intros H. apply app_inv_head in H. now injection H.
Qed.

Lemma preambles_are_longer context user_text :
  user_text <> claimed_preamble context user_text /\
  user_text <> augmented_message context user_text.
Proof.
  split; intros H; apply (f_equal String.length) in H;
    unfold claimed_preamble, augmented_message in H;
    rewrite !string_length_app in H; simpl in H; lia.
Qed.

(** C2: the code does not send the preamble.  In every turn on a stored
    conversation that holds a lesson, whether the turn returns or raises,
    the one call of the model gets the converted former history followed
    by a human message whose content is the user text as typed.  Whatever
    the retrieved context, this differs from the history ending in the
    preamble of the claim, and from the history ending in the
    [augmented_message] that [chat] builds and never uses. *)
Theorem continuation_model_input :
  forall env message cid w c out w',
    initialized env = true -> cid <> "" -> stored w cid = Some c ->
    lesson_is_generated (messages c) = true ->
    chat env message (Some cid) w = (out, w') ->
    llm_calls w' =
      (llm_calls w ++
       [(_convert_to_langchain_messages (messages c) ++
         [mkBaseMessage HumanMessage message])%list])%list /\
    (forall context,
       llm_calls w' <>
         (llm_calls w ++
          [(_convert_to_langchain_messages (messages c) ++
            [mkBaseMessage HumanMessage (claimed_preamble context message)])%list])%list) /\
    (forall context,
       llm_calls w' <>
         (llm_calls w ++
          [(_convert_to_langchain_messages (messages c) ++
            [mkBaseMessage HumanMessage (augmented_message context message)])%list])%list).
Proof.
  intros env message cid w c out w' Hi Hne Hs Hgen Hchat.
  destruct (@stored_some w cid c Hs) as [docs [Hc Hf]].
  rewrite (@chat_resolved env message cid w docs c Hi Hne Hc Hf) in Hchat.
  rewrite (@turn_at env message cid c w docs Hc Hf), Hgen in Hchat.
  destruct (after_retrieval_spec env message w) as [[Hc2 _] [Hl2 _]].
  cbn [collection set_clock] in Hc2.
  assert (Hcalls : llm_calls w' = (llm_calls w ++ [sent_history c message])%list).
  { destruct (llm_invoke env (List.length (llm_calls w)) (sent_history c message))
      as [e|reply].
    - injection Hchat as _ <-. cbn. now rewrite Hl2.
    - destruct (@persist_reply_stored env message cid c
                  (messages c ++ [mkChatMessage "user" message (clock w)])
                  (sent_history c message) reply cid
                  (log_llm (sent_history c message) (after_retrieval env message w)) docs)
        as [w1 [Hrun [_ [_ [Hl _]]]]]; [cbn; congruence | exact Hf |].
      rewrite Hrun in Hchat. injection Hchat as _ <-. rewrite Hl. cbn. now rewrite Hl2. }
  fold (sent_history c message).
  split; [exact Hcalls|].
  split; intros context H; rewrite Hcalls in H; apply app_inv_head in H;
    injection H as H; apply (@sent_history_inj c) in H;
    destruct (preambles_are_longer context message) as [P1 P2];
    first [exact (P1 H) | exact (P2 H)].
Qed.

Lemma continuation_model_input_witness :
  llm_calls continuation_world =
    (llm_calls taught_world ++
     [(_convert_to_langchain_messages (messages taught) ++
       [mkBaseMessage HumanMessage "More?"])%list])%list /\
  (forall context,
     llm_calls continuation_world <>
       (llm_calls taught_world ++
        [(_convert_to_langchain_messages (messages taught) ++
          [mkBaseMessage HumanMessage (claimed_preamble context "More?")])%list])%list) /\
  (forall context,
     llm_calls continuation_world <>
       (llm_calls taught_world ++
        [(_convert_to_langchain_messages (messages taught) ++
          [mkBaseMessage HumanMessage (augmented_message context "More?")])%list])%list).
Proof.
  assert (Hrun : chat env_up "More?" (Some "c-7") taught_world =
                 (Returned (mkChatResult
                              "<h4><topic>TCP</topic></h4><lesson>Three steps</lesson>"
                              "c-7" openai_model 101),
                  continuation_world))
    by (vm_compute; reflexivity).
  assert (Hid : "c-7" <> "") by discriminate.
  exact (@continuation_model_input env_up "More?" "c-7" taught_world taught _ _
           eq_refl Hid eq_refl eq_refl Hrun).
Defined.

(** * The instants of a conversation *)

(** C9, as the claim has it, fails.  A conversation built ahead of the
    clock and saved directly is stored with [updated_at] 100 and
    [created_at] 200; and with a clock that goes backwards a conversation
    that [create_conversation] makes is stored with [updated_at] 80 and
    [created_at] 100. *)
Lemma updated_at_before_created_at :
  stored (snd (save_conversation env_up future_conversation empty_world)) "c-5" =
    Some (mkConversationHistory "c-5" [] None 200 100) /\
  stored (snd (create_conversation env_backwards None empty_world)) "c-0" =
    Some (mkConversationHistory "c-0" [] None 100 80) /\
  ~ (forall env w c w' stored_c,
       save_conversation env c w = (Returned true, w') ->
       stored w' (conversation_id c) = Some stored_c ->
       created_at stored_c <= updated_at stored_c).
Proof.
  split; [vm_compute; reflexivity|]. split; [vm_compute; reflexivity|].
  intros H.
  specialize (H env_up empty_world future_conversation
                (snd (save_conversation env_up future_conversation empty_world))
                (mkConversationHistory "c-5" [] None 200 100) eq_refl eq_refl).
  cbn in H. lia.
Qed.

Lemma returning_turn_record env message requested_id w r w' :
  chat env message requested_id w = (Returned r, w') ->
  exists c ai t0,
    stored w' (result_conversation_id r) = Some (turn_record env c message t0 ai) /\
    clock w' = tick env (tick env (tick env (tick env t0))) /\
    (clock w = t0 \/ tick env (tick env (tick env (clock w))) = t0) /\
    ((exists cid, requested_id = Some cid /\ cid <> "" /\ stored w cid = Some c /\
                  result_conversation_id r = cid) \/
     ((exists docs, collection w = Some docs /\ unresolved requested_id docs) /\
      c = created_record env (Some message) w)).
Proof.
  intros Hchat.
  destruct (initialized env) eqn:Hi;
    [|unfold chat in Hchat; rewrite Hi in Hchat; discriminate Hchat].
  destruct (collection w) as [docs|] eqn:Hc.
  - destruct (resolved_or_not requested_id docs) as [[cid [c [-> [Hne Hf]]]] | Hu].
    + assert (Hs : stored w cid = Some c) by (unfold stored; now rewrite Hc).
      destruct (@chat_stored env message cid w c (Returned r) w' Hi Hne Hs Hchat)
        as [ai [Hs' [-> [Hk _]]]].
      exists c, ai, (clock w). cbn [result_conversation_id].
      split; [exact Hs'|]. split; [exact Hk|]. split; [now left|].
      left. exists cid. repeat split; assumption.
    + rewrite (@chat_created env message requested_id w docs Hi Hc Hu) in Hchat.
      eapply turn_spec in Hchat; [|reflexivity].
      destruct Hchat as [ai [Hcol [-> [Hk _]]]].
      exists (created_record env (Some message) w), ai,
             (tick env (tick env (tick env (clock w)))).
      cbn [result_conversation_id]. split.
      * unfold stored. rewrite Hcol. apply find_one_update_one. reflexivity.
      * split; [exact Hk|]. split; [now right|]. right. split; [eauto | reflexivity].
  - destruct (@chat_disconnected env message requested_id w Hi Hc) as [w1 [Hrun _]].
    rewrite Hrun in Hchat. discriminate Hchat.
Qed.

(** C9 (amended): with a clock that never goes backwards, every
    conversation has [updated_at >= created_at] in a store filled, from
    an empty one, by [create_conversation], [chat], [delete_conversation]
    and saves of conversations whose [created_at] is not later than the
    save.  Every turn that returns, on a stored conversation or on one
    that the turn creates, leaves under the identifier it answers a
    conversation whose [updated_at] is the reading of the clock taken
    when saving, the last of the turn and not before the turn began.  A
    turn on a stored conversation keeps its [created_at] and does not
    lower its [updated_at]; a conversation that the turn creates has the
    instant at which the turn began as [created_at], not later than its
    [updated_at]. *)
Theorem updated_at_follows_created_at :
  forall env,
    (forall t, t <= tick env t) ->
    (forall w docs d,
       reachable env w -> collection w = Some docs -> In d docs ->
       created_at d <= updated_at d) /\
    (forall message requested_id w r w',
       chat env message requested_id w = (Returned r, w') ->
       exists c',
         stored w' (result_conversation_id r) = Some c' /\
         clock w' = tick env (updated_at c') /\
         clock w <= updated_at c') /\
    (forall message cid w c r w',
       initialized env = true -> cid <> "" -> stored w cid = Some c ->
       chat env message (Some cid) w = (Returned r, w') ->
       exists c',
         stored w' cid = Some c' /\
         created_at c' = created_at c /\
         clock w' = tick env (updated_at c') /\
         clock w <= updated_at c' /\
         (reachable env w -> updated_at c <= updated_at c')) /\
    (forall message requested_id w docs r w',
       collection w = Some docs -> unresolved requested_id docs ->
       chat env message requested_id w = (Returned r, w') ->
       exists c',
         stored w' (result_conversation_id r) = Some c' /\
         created_at c' = clock w /\
         created_at c' <= updated_at c').
Proof.
  intros env Hmono.
  assert (Up : forall t, t <= tick env (tick env (tick env t))).
  { intros t. pose proof (Hmono t). pose proof (Hmono (tick env t)).
    pose proof (Hmono (tick env (tick env t))). lia. }
  split; [|split; [|split]].
  - intros w docs d Hr Hc Hin.
    destruct (reachable_timely Hmono Hr) as [Ht _].
    apply (proj1 (Forall_forall _ _) (Ht _ Hc) d Hin).
  - intros message requested_id w r w' Hchat.
    destruct (@returning_turn_record env message requested_id w r w' Hchat)
      as [c [ai [t0 [Hs [Hk [Ht0 _]]]]]].
    eexists. split; [exact Hs|]. cbn [updated_at turn_record].
    split; [exact Hk|].
    pose proof (Up (clock w)). pose proof (Up t0). destruct Ht0 as [<- | <-]; lia.
  - intros message cid w c r w' Hi Hne Hs Hchat.
    destruct (@chat_stored env message cid w c (Returned r) w' Hi Hne Hs Hchat)
      as [ai [Hs' [_ [Hk _]]]].
    eexists. split; [exact Hs'|]. cbn [created_at updated_at turn_record].
    pose proof (Up (clock w)).
    repeat split; [exact Hk | lia |].
    intros Hr. destruct (reachable_timely Hmono Hr) as [Ht _].
    destruct (@stored_some w cid c Hs) as [docs [Hc Hf]].
    pose proof (proj1 (Forall_forall _ _) (Ht _ Hc) c (find_one_In _ _ Hf)) as [_ H2].
    lia.
  - intros message requested_id w docs r w' Hc Hu Hchat.
    destruct (initialized env) eqn:Hi;
      [|unfold chat in Hchat; rewrite Hi in Hchat; discriminate Hchat].
    rewrite (@chat_created env message requested_id w docs Hi Hc Hu) in Hchat.
    eapply turn_spec in Hchat; [|reflexivity].
    destruct Hchat as [ai [Hcol [-> _]]].
    eexists. split.
    + unfold stored. rewrite Hcol. cbn [result_conversation_id].
      apply find_one_update_one. reflexivity.
    + cbn [created_at updated_at turn_record created_record clock created_world].
      split; [reflexivity|].
      pose proof (Up (clock w)). pose proof (Up (tick env (tick env (tick env (clock w))))).
      lia.
Qed.

Lemma updated_at_follows_created_at_witness :
  (exists docs,
     collection first_turn_world = Some docs /\
     List.length docs = 1%nat /\
     Forall (fun d => created_at d <= updated_at d) docs) /\
  (exists c',
     stored first_turn_world "c-0" = Some c' /\
     created_at c' = 100 /\
     created_at c' <= updated_at c').
Proof.
  assert (Hmono : forall t, t <= tick env_up t)
    by (intros t; unfold env_up, tick, tick_one; lia).
  assert (Hrun : chat env_up "Explain TCP handshakes" None empty_world =
                 (first_turn_outcome, first_turn_world))
    by (vm_compute; reflexivity).
  assert (Hu : unresolved None []) by (left; reflexivity).
  split.
  - eexists. split; [reflexivity|]. split; [reflexivity|].
    apply Forall_forall. intros d Hin.
    apply (proj1 (updated_at_follows_created_at env_up Hmono) first_turn_world _ d
             (@reach_chat env_up empty_world "Explain TCP handshakes" None
                first_turn_outcome first_turn_world
                (@reach_start env_up empty_world eq_refl) Hrun)
             eq_refl Hin).
  - exact (proj2 (proj2 (proj2 (updated_at_follows_created_at env_up Hmono)))
             "Explain TCP handshakes" None empty_world [] _ first_turn_world
             eq_refl Hu Hrun).
Defined.

(** * Turns that begin a lesson, revisited *)





(** * The chat endpoint, and an index that raises *)



Lemma bind_ext {A B} (m m' : M A) (k k' : A -> M B) w :
  m w = m' w -> (forall a w1, k a w1 = k' a w1) -> bind m k w = bind m' k' w.
Proof.
  intros Hm Hk. unfold bind. rewrite Hm.
  destruct (m' w) as [[a|e] w1]; [apply Hk | reflexivity].
Qed.

Lemma quiet_index_answer (threshold : float) env n query k :
  retrieved threshold (similarity_search_with_score (with_quiet_index env) n query k) =
    retrieved threshold (similarity_search_with_score env n query k) /\
  any_above threshold (similarity_search_with_score (with_quiet_index env) n query k) =
    any_above threshold (similarity_search_with_score env n query k).
Proof.
  cbn [with_quiet_index similarity_search_with_score].
  destruct (similarity_search_with_score env n query k); split; reflexivity.
Qed.

Lemma get_context_quiet env message w :
  get_context (with_quiet_index env) message w = get_context env message w.
Proof.
  rewrite !get_context_closed.
  now rewrite (proj1 (quiet_index_answer 0.7 env _ _ _)).
Qed.

Lemma aget_context_quiet env message w :
  aget_context (with_quiet_index env) message w = aget_context env message w.
Proof.
  rewrite !aget_context_closed.
  destruct (quiet_index_answer 0.9 env (List.length (vector_calls w)) message 5)
    as [-> ->].
  reflexivity.
Qed.

Lemma build_topic_node_quiet env msgs w :
  build_topic_node (with_quiet_index env) msgs w = build_topic_node env msgs w.
Proof.
  unfold build_topic_node. apply bind_ext; [|reflexivity].
  unfold try_except. destruct (pop msgs) as [[rest user_message]|]; [|reflexivity].
  rewrite (@bind_ext _ _ (get_context (with_quiet_index env) (msg_content user_message))
             (get_context env (msg_content user_message)) _
             (fun context =>
                reply <- llm env
                           (rest ++ [mkBaseMessage (msg_class user_message)
                                       (lesson_prompt context (msg_content user_message))]) ;;
                ret (IsMessage reply)) w);
    [reflexivity | apply get_context_quiet | reflexivity].
Qed.

Lemma graph_ainvoke_quiet env state w :
  graph_ainvoke (with_quiet_index env) state w = graph_ainvoke env state w.
Proof.
  unfold graph_ainvoke. apply bind_ext; [reflexivity|]. intros branch w1.
  apply bind_ext; [|reflexivity].
  destruct (String.eqb branch "not_generated");
    [apply build_topic_node_quiet | reflexivity].
Qed.

(** X5: an index that raises cannot be told from an index that finds
    nothing.  Every turn has the same outcome and leaves the same world,
    logs of calls included, whether the similarity search raises or
    answers the empty list. *)
Theorem index_failure_absorbed :
  forall env message requested_id w,
    chat (with_quiet_index env) message requested_id w =
    chat env message requested_id w.
Proof.
  intros env message requested_id w. unfold chat.
  change (initialized (with_quiet_index env)) with (initialized env).
  destruct (negb (initialized env)); [reflexivity|].
  apply bind_ext; [reflexivity|]. intros cid w1.
  apply bind_ext; [reflexivity|]. intros conversation w2.
  apply bind_ext; [reflexivity|]. intros [cid' conversation'] w3.
  apply bind_ext; [reflexivity|]. intros t w4.
  destruct conversation' as [c|]; [|reflexivity].
  apply bind_ext; [apply aget_context_quiet|]. intros context w5.
  apply bind_ext; [apply graph_ainvoke_quiet|]. intros result w6.
  reflexivity.
Qed.
